(** * Question/answer dataset pipeline: src/dataset_gen.py and src/dataset_qa.py

    A shallow embedding of the two pipeline scripts:
    - [generate_questions_and_answers]: the HTTP outcome, the stage-1 JSON
      extraction ([find]/[rfind]/slice/[json.loads]) and the line-based
      fallback parser;
    - [write_results_to_excel]: the long layout (dataset_gen.py, one row per
      question/answer dict) and the wide layout (dataset_qa.py, the input
      table plus ten QA columns).

    Python strings are modelled as [string] (characters are Latin-1 code
    points 0..255).  Python values returned by [json.loads] and built by the
    fallback parser are modelled by the [json] type; a Python [dict] is an
    association list kept with dict semantics (an existing key is updated in
    place, a new key is appended).

    Two things the scripts leave to their environment are parameters:
    the runtime limits of [json.loads] ([Json.runtime]: recursion depth and
    the digit limit of [int()]), and the pandas major version, through
    [str_cols] (pandas 3 gives the added QA columns the [str] dtype, pandas 2
    the [object] dtype). *)

From Stdlib Require Import String Ascii List ZArith Bool Lia.
Import ListNotations.
Open Scope string_scope.
Open Scope list_scope.

(** The double-quote character, as a one-character string, and a text
    between double quotes. *)
Definition dq : string := String "034"%char EmptyString.
Definition quoted (s : string) : string := (dq ++ s ++ dq)%string.

(** Option bind, used where the Python code may raise. *)
Notation "x <- a ;; b" :=
  (match a with Some x => b | None => None end)
  (at level 60, right associativity).

(** ** Python [str] primitives *)
Module Py.

(** [str.isspace] on code points 0..255: \t \n \v \f \r, \x1c..\x1f,
    space, \x85 and \xa0. *)
Definition is_space (c : ascii) : bool :=
  let n := nat_of_ascii c in
  ((9 <=? n) && (n <=? 13))%nat || ((28 <=? n) && (n <=? 32))%nat
  || (n =? 133)%nat || (n =? 160)%nat.

(** [str.lstrip()] *)
Fixpoint lstrip (s : string) : string :=
  match s with
  | EmptyString => EmptyString
  | String c r => if is_space c then lstrip r else s
  end.

(** [str.rstrip()]: a character is kept unless it is a space and
    everything after it strips to nothing. *)
Fixpoint rstrip (s : string) : string :=
  match s with
  | EmptyString => EmptyString
  | String c r =>
      let r' := rstrip r in
      if is_space c && String.eqb r' "" then "" else String c r'
  end.

(** [str.strip()] *)
Definition strip (s : string) : string := rstrip (lstrip s).

(** [s.startswith(p)] *)
Definition startswith (s p : string) : bool := String.prefix p s.

(** [parts = line.split(":", 1)]; [Some parts[1]] when [len(parts) > 1]. *)
Fixpoint split_colon (s : string) : option string :=
  match s with
  | EmptyString => None
  | String c r => if Ascii.eqb c ":" then Some r else split_colon r
  end.

(** [s.split("\n")] *)
Fixpoint split_nl (s : string) : list string :=
  match s with
  | EmptyString => [""]
  | String c r =>
      if Ascii.eqb c "010"%char then "" :: split_nl r
      else match split_nl r with
           | l :: ls => String c l :: ls
           | [] => [String c ""]
           end
  end.

Fixpoint find_nat (c : ascii) (s : string) : option nat :=
  match s with
  | EmptyString => None
  | String d r =>
      if Ascii.eqb d c then Some 0%nat
      else match find_nat c r with Some i => Some (S i) | None => None end
  end.

Fixpoint rfind_nat (c : ascii) (s : string) : option nat :=
  match s with
  | EmptyString => None
  | String d r =>
      match rfind_nat c r with
      | Some i => Some (S i)
      | None => if Ascii.eqb d c then Some 0%nat else None
      end
  end.

(** [s.find(c)] and [s.rfind(c)]: the index, or -1. *)
Definition find (c : ascii) (s : string) : Z :=
  match find_nat c s with Some i => Z.of_nat i | None => (-1)%Z end.

Definition rfind (c : ascii) (s : string) : Z :=
  match rfind_nat c s with Some i => Z.of_nat i | None => (-1)%Z end.

(** Index normalisation of a slice bound. *)
Definition slice_index (len i : Z) : Z :=
  if (i <? 0)%Z then Z.max 0 (len + i) else Z.min i len.

(** [s[i:j]] *)
Definition slice (s : string) (i j : Z) : string :=
  let len := Z.of_nat (String.length s) in
  let a := slice_index len i in
  let b := slice_index len j in
  if (a <? b)%Z then substring (Z.to_nat a) (Z.to_nat (b - a)) s else "".

End Py.

(** ** Python values produced by [json.loads] *)
Local Set Warnings "-register-all".
Inductive json : Type :=
| JNull
| JBool (b : bool)
| JNumber (lexeme : string)
| JString (s : string)
| JArray (items : list json)
| JObject (fields : list (string * json)).

(** Python [dict] semantics on association lists. *)
Fixpoint dict_set {A} (k : string) (v : A) (d : list (string * A)) : list (string * A) :=
  match d with
  | [] => [(k, v)]
  | (k', v') :: d' =>
      if String.eqb k k' then (k, v) :: d' else (k', v') :: dict_set k v d'
  end.

Fixpoint dict_get {A} (k : string) (d : list (string * A)) : option A :=
  match d with
  | [] => None
  | (k', v) :: d' => if String.eqb k k' then Some v else dict_get k d'
  end.

(** The digits of a number lexeme (as matched by NUMBER_RE) read as one
    natural number [m], with the count [nd] of those digits, the count [fd]
    of fraction digits, whether a fraction was seen, and the text of the
    exponent after 'e' or 'E', if any. *)
Fixpoint read_mantissa (s : string) (m : Z) (nd fd : nat) (frac : bool)
    : Z * nat * nat * bool * option string :=
  match s with
  | EmptyString => (m, nd, fd, frac, None)
  | String c r =>
      if Ascii.eqb c "e" || Ascii.eqb c "E" then (m, nd, fd, frac, Some r)
      else if Ascii.eqb c "." then read_mantissa r m nd fd true
      else if Ascii.eqb c "-" then read_mantissa r m nd fd frac
      else read_mantissa r (10 * m + Z.of_nat (nat_of_ascii c - 48))%Z (S nd)
             (if frac then S fd else fd) frac
  end.

Fixpoint read_digits (s : string) (acc : Z) : Z :=
  match s with
  | EmptyString => acc
  | String c r => read_digits r (10 * acc + Z.of_nat (nat_of_ascii c - 48))%Z
  end.

Definition read_exponent (s : string) : Z :=
  match s with
  | String c r =>
      if Ascii.eqb c "-" then (- read_digits r 0)%Z
      else if Ascii.eqb c "+" then read_digits r 0
      else read_digits s 0
  | EmptyString => 0%Z
  end.

(** [bool(x)] for the number [x] that [json.loads] builds from a lexeme.
    [NaN], [Infinity] and [-Infinity] are true.  A lexeme without fraction
    and exponent is an [int], false exactly when it is zero.  Any other is a
    [float]: [float()] rounds [m * 10^e] correctly, ties to even, so the
    result is [0.0] (false) exactly when [m = 0] or [m * 10^e <= 2^-1075],
    half the smallest subnormal; when [-e >= nd + 324] the value is below
    [10^nd * 10^-(nd+324) = 10^-324 < 2^-1075], without computing [10^-e]. *)
Definition number_truthy (lx : string) : bool :=
  if String.eqb lx "NaN" || String.eqb lx "Infinity" || String.eqb lx "-Infinity" then true
  else
    let '(m, nd, fd, frac, ex) := read_mantissa lx 0 0 0 false in
    if (m =? 0)%Z then false
    else
      match ex, frac with
      | None, false => true
      | _, _ =>
          let e := ((match ex with Some t => read_exponent t | None => 0 end)
                    - Z.of_nat fd)%Z in
          if (0 <=? e)%Z then true
          else if (Z.of_nat nd + 324 <=? - e)%Z then false
          else (10 ^ (- e) <? m * 2 ^ 1075)%Z
      end.

(** Python truthiness of a decoded value. *)
Definition truthy (v : json) : bool :=
  match v with
  | JNull => false
  | JBool b => b
  | JNumber lx => number_truthy lx
  | JString s => negb (String.eqb s "")
  | JArray xs => match xs with [] => false | _ => true end
  | JObject fs => match fs with [] => false | _ => true end
  end.

Example truthy_number_tests :
  map (fun lx => truthy (JNumber lx))
    ["0"; "-0"; "7"; "0.0"; "-0.0e-1"; "0e5"; "1e-400"; "1E400"; "0.001";
     "2.4703282292062327e-324"; "2.4703282292062328e-324"; "5e-324"; "NaN"; "-Infinity"] =
  [false; false; true; false; false; false; false; true; true;
   false; true; true; true; true].
Proof. vm_compute. reflexivity. Qed.

(** ** [json.loads] (Python's json.decoder / json.scanner, strict mode)

    Whitespace is space, tab, newline and carriage return; numbers follow
    NUMBER_RE (an optional minus, 0 or a digit string without leading zero,
    an optional fraction, an optional exponent) and keep their lexeme;
    [NaN], [Infinity] and [-Infinity] are accepted; a string may not hold a
    raw control character.  A [\uXXXX] escape of a code point in the
    modelled character set (0..255) is decoded to that character; any other
    code point (a high surrogate followed by the escape of a low surrogate
    being joined into one, as CPython does) lies outside the character set
    and is decoded to the stand-in character '?'. *)
Module Json.

Definition is_ws (c : ascii) : bool :=
  Ascii.eqb c " " || Ascii.eqb c "009"%char || Ascii.eqb c "010"%char
  || Ascii.eqb c "013"%char.

Fixpoint skip_ws (s : string) : string :=
  match s with
  | EmptyString => EmptyString
  | String c r => if is_ws c then skip_ws r else s
  end.

Definition is_digit (c : ascii) : bool :=
  ((48 <=? nat_of_ascii c) && (nat_of_ascii c <=? 57))%nat.

Fixpoint take_digits (s : string) : string * string :=
  match s with
  | String c r =>
      if is_digit c then let (ds, r') := take_digits r in (String c ds, r')
      else ("", s)
  | EmptyString => ("", "")
  end.

(** [NUMBER_RE.match(s)]: the matched lexeme and the rest. *)
Definition match_number (s : string) : option (string * string) :=
  let '(sign, s1) :=
    match s with
    | String c r => if Ascii.eqb c "-" then ("-", r) else ("", s)
    | EmptyString => ("", s)
    end in
  int_part <- match s1 with
              | String c r =>
                  if Ascii.eqb c "0" then Some ("0", r)
                  else if is_digit c then
                    let (ds, r') := take_digits r in Some (String c ds, r')
                  else None
              | EmptyString => None
              end ;;
  let '(ip, s2) := int_part in
  let '(frac, s3) :=
    match s2 with
    | String dot (String d r) =>
        if Ascii.eqb dot "." && is_digit d then
          let (ds, r') := take_digits r in (String dot (String d ds), r')
        else ("", s2)
    | _ => ("", s2)
    end in
  let '(ex, s4) :=
    match s3 with
    | String e r =>
        if Ascii.eqb e "e" || Ascii.eqb e "E" then
          let '(sg, r1) :=
            match r with
            | String c r0 =>
                if Ascii.eqb c "+" || Ascii.eqb c "-" then (String c "", r0)
                else ("", r)
            | EmptyString => ("", r)
            end in
          match r1 with
          | String d r2 =>
              if is_digit d then
                let (ds, r3) := take_digits r2 in (String e (sg ++ String d ds)%string, r3)
              else ("", s3)
          | EmptyString => ("", s3)
          end
        else ("", s3)
    | EmptyString => ("", s3)
    end in
  Some ((sign ++ ip ++ frac ++ ex)%string, s4).

Definition hex_val (c : ascii) : option nat :=
  let n := nat_of_ascii c in
  if ((48 <=? n) && (n <=? 57))%nat then Some (n - 48)%nat
  else if ((65 <=? n) && (n <=? 70))%nat then Some (n - 55)%nat
  else if ((97 <=? n) && (n <=? 102))%nat then Some (n - 87)%nat
  else None.

Definition hex4 (a b c d : ascii) : option nat :=
  x1 <- hex_val a ;; x2 <- hex_val b ;; x3 <- hex_val c ;; x4 <- hex_val d ;;
  Some (((x1 * 16 + x2) * 16 + x3) * 16 + x4)%nat.

(** The escape [\uXXXX] whose first two hex digits are [h1 h2] is a high
    surrogate (D800-DBFF, [high = true]) or a low one (DC00-DFFF). *)
Definition is_surrogate (high : bool) (h1 h2 : ascii) : bool :=
  match hex_val h1, hex_val h2 with
  | Some 13, Some x => if high then ((8 <=? x) && (x <=? 11))%nat else (12 <=? x)%nat
  | _, _ => false
  end.

(** [BACKSLASH] table of the decoder. *)
Definition simple_escape (e : ascii) : option ascii :=
  if Ascii.eqb e "034"%char then Some "034"%char
  else if Ascii.eqb e "\" then Some "\"%char
  else if Ascii.eqb e "/" then Some "/"%char
  else if Ascii.eqb e "b" then Some "008"%char
  else if Ascii.eqb e "f" then Some "012"%char
  else if Ascii.eqb e "n" then Some "010"%char
  else if Ascii.eqb e "r" then Some "013"%char
  else if Ascii.eqb e "t" then Some "009"%char
  else None.

(** [scanstring]: the body of a string literal after its opening quote. *)
Fixpoint scanstring (s : string) : option (string * string) :=
  match s with
  | EmptyString => None
  | String c r =>
      if Ascii.eqb c "034"%char then Some ("", r)
      else if Ascii.eqb c "\" then
        match r with
        | EmptyString => None
        | String e r2 =>
            if Ascii.eqb e "u" then
              match r2 with
              | String h1 (String h2 (String h3 (String h4 r3))) =>
                  n <- hex4 h1 h2 h3 h4 ;;
                  if (n <? 256)%nat then
                    x <- scanstring r3 ;; Some (String (ascii_of_nat n) (fst x), snd x)
                  else if is_surrogate true h1 h2 then
                    match r3 with
                    | String b1 (String u1 (String a1 (String a2 (String a3 (String a4 r5))))) =>
                        if Ascii.eqb b1 "\" && Ascii.eqb u1 "u" then
                          match hex4 a1 a2 a3 a4 with
                          | Some _ =>
                              if is_surrogate false a1 a2 then
                                x <- scanstring r5 ;; Some (String "?" (fst x), snd x)
                              else x <- scanstring r3 ;; Some (String "?" (fst x), snd x)
                          | None => None
                          end
                        else x <- scanstring r3 ;; Some (String "?" (fst x), snd x)
                    | _ => x <- scanstring r3 ;; Some (String "?" (fst x), snd x)
                    end
                  else x <- scanstring r3 ;; Some (String "?" (fst x), snd x)
              | _ => None
              end
            else
              d <- simple_escape e ;;
              x <- scanstring r2 ;; Some (String d (fst x), snd x)
        end
      else if (nat_of_ascii c <? 32)%nat then None
      else x <- scanstring r ;; Some (String c (fst x), snd x)
  end.

(** [s[idx:].startswith(p)], returning the rest. *)
Fixpoint take_prefix (p s : string) : option string :=
  match p, s with
  | EmptyString, _ => Some s
  | String a p', String b s' => if Ascii.eqb a b then take_prefix p' s' else None
  | String _ _, EmptyString => None
  end.

(** The runtime [json.loads] runs under, for the exceptions other than
    [JSONDecodeError] it can raise:
    - [depth_budget]: how many nested arrays and objects the C scanner may
      enter before [Py_EnterRecursiveCall] raises [RecursionError]; it
      depends on the recursion limit, on the depth of the calling frames
      and, from Python 3.12, on the C stack ([None]: no limit);
    - [int_max_str_digits]: [sys.get_int_max_str_digits()] (4300 by default
      from Python 3.11; [None] when it is 0 or before 3.11): [int()] of a
      literal with more digits raises [ValueError]. *)
Record runtime : Type := {
  depth_budget : option nat;
  int_max_str_digits : option nat
}.

Definition unlimited : runtime := {| depth_budget := None; int_max_str_digits := None |}.

(** The outcome of a decoding step: a result, a [JSONDecodeError], or an
    exception that [except json.JSONDecodeError] does not catch. *)
Inductive outcome (A : Type) : Type :=
| Done (x : A)
| Decode_error
| Raised.
Arguments Done {A} x.
Arguments Decode_error {A}.
Arguments Raised {A}.

Definition of_option {A} (o : option A) : outcome A :=
  match o with Some x => Done x | None => Decode_error end.

Notation "x <-- a ;; b" :=
  (match a with Done x => b | Decode_error => Decode_error | Raised => Raised end)
  (at level 60, right associativity).

(** [_Py_EnterRecursiveCall] on entering an array or object nested in
    [depth] others. *)
Definition enter_ok (rt : runtime) (depth : nat) : bool :=
  match depth_budget rt with Some b => (depth <? b)%nat | None => true end.

(** A lexeme without fraction or exponent, converted by [int()]. *)
Fixpoint int_lexeme (s : string) : bool :=
  match s with
  | EmptyString => true
  | String c r => (is_digit c || Ascii.eqb c "-") && int_lexeme r
  end.

Fixpoint count_digits (s : string) : nat :=
  match s with
  | EmptyString => 0
  | String c r => (if is_digit c then 1 else 0) + count_digits r
  end.

(** The digit-count limit of [int()] (the sign is not counted). *)
Definition int_ok (rt : runtime) (lx : string) : bool :=
  match int_max_str_digits rt with
  | Some lim => negb (int_lexeme lx) || (count_digits lx <=? lim)%nat
  | None => true
  end.

(** [scan_once], [JSONArray] and [JSONObject] of the C scanner; [depth]
    counts the arrays and objects being decoded around the current value,
    and [fuel] bounds the recursion (each call of [scan_once] or of a loop
    iteration is paid by one unit, and [loads] supplies more units than the
    text can consume). *)
Fixpoint scan_once (rt : runtime) (fuel depth : nat) (s : string)
    : outcome (json * string) :=
  match fuel with
  | O => Decode_error
  | S f =>
      match s with
      | EmptyString => Decode_error
      | String c r =>
          if Ascii.eqb c "034"%char then
            x <-- of_option (scanstring r) ;; Done (JString (fst x), snd x)
          else if Ascii.eqb c "{" then
            if enter_ok rt depth then
              match skip_ws r with
              | String d r' =>
                  if Ascii.eqb d "}" then Done (JObject [], r')
                  else if Ascii.eqb d "034"%char then object_members rt f (S depth) r' []
                  else Decode_error
              | EmptyString => Decode_error
              end
            else Raised
          else if Ascii.eqb c "[" then
            if enter_ok rt depth then
              match skip_ws r with
              | String d r' =>
                  if Ascii.eqb d "]" then Done (JArray [], r')
                  else array_items rt f (S depth) (skip_ws r) []
              | EmptyString => Decode_error
              end
            else Raised
          else
            match take_prefix "null" s with
            | Some r' => Done (JNull, r')
            | None =>
            match take_prefix "true" s with
            | Some r' => Done (JBool true, r')
            | None =>
            match take_prefix "false" s with
            | Some r' => Done (JBool false, r')
            | None =>
            match match_number s with
            | Some (lx, r') => if int_ok rt lx then Done (JNumber lx, r') else Raised
            | None =>
            match take_prefix "NaN" s with
            | Some r' => Done (JNumber "NaN", r')
            | None =>
            match take_prefix "Infinity" s with
            | Some r' => Done (JNumber "Infinity", r')
            | None =>
            match take_prefix "-Infinity" s with
            | Some r' => Done (JNumber "-Infinity", r')
            | None => Decode_error
            end end end end end end end
      end
  end
with array_items (rt : runtime) (fuel depth : nat) (s : string) (acc : list json)
    : outcome (json * string) :=
  match fuel with
  | O => Decode_error
  | S f =>
      x <-- scan_once rt f depth s ;;
      match skip_ws (snd x) with
      | String d r =>
          if Ascii.eqb d "]" then Done (JArray (rev (fst x :: acc)), r)
          else if Ascii.eqb d "," then array_items rt f depth (skip_ws r) (fst x :: acc)
          else Decode_error
      | EmptyString => Decode_error
      end
  end
with object_members (rt : runtime) (fuel depth : nat) (s : string)
    (fields : list (string * json)) : outcome (json * string) :=
  match fuel with
  | O => Decode_error
  | S f =>
      k <-- of_option (scanstring s) ;;
      match skip_ws (snd k) with
      | String colon r =>
          if Ascii.eqb colon ":" then
            x <-- scan_once rt f depth (skip_ws r) ;;
            let fields' := dict_set (fst k) (fst x) fields in
            match skip_ws (snd x) with
            | String d r1 =>
                if Ascii.eqb d "}" then Done (JObject fields', r1)
                else if Ascii.eqb d "," then
                  match skip_ws r1 with
                  | String q r2 =>
                      if Ascii.eqb q "034"%char then object_members rt f depth r2 fields'
                      else Decode_error
                  | EmptyString => Decode_error
                  end
                else Decode_error
            | EmptyString => Decode_error
            end
          else Decode_error
      | EmptyString => Decode_error
      end
  end.

(** [json.loads(s)] under the runtime [rt]. *)
Definition loads (rt : runtime) (s : string) : outcome json :=
  x <-- scan_once rt (2 * String.length s + 2) 0 (skip_ws s) ;;
  match skip_ws (snd x) with
  | EmptyString => Done (fst x)
  | _ => Decode_error
  end.

(** [json.loads(s)] when no runtime limit is reached: [None] stands for
    [JSONDecodeError]. *)
Definition json_loads (s : string) : option json :=
  match loads unlimited s with Done v => Some v | _ => None end.

End Json.

Example json_loads_ex1 :
  Json.json_loads (" [ {" ++ quoted "question" ++ ": " ++ quoted "q" ++ ", "
                   ++ quoted "answer" ++ ": " ++ quoted "a" ++ "}, 1.5e3, -0, null ] ")%string =
  Some (JArray [JObject [("question", JString "q"); ("answer", JString "a")];
                JNumber "1.5e3"; JNumber "-0"; JNull]).
Proof. vm_compute. reflexivity. Qed.

(** ** [generate_questions_and_answers] (dataset_gen.py and dataset_qa.py, lines 43-101) *)
Module Gen.
Import Py.

(** A question/answer dict [{"question": q, "answer": a}] built by the
    fallback parser. *)
Definition qa : Type := (string * string)%type.

Definition qa_json (r : qa) : json :=
  JObject [("question", JString (fst r)); ("answer", JString (snd r))].

Definition records_json (rs : list qa) : json := JArray (map qa_json rs).

(** Lines 50-55: [start_idx = response_text.find('[')],
    [end_idx = response_text.rfind(']') + 1], and the text handed to
    [json.loads]: the slice when [start_idx != -1 and end_idx != -1],
    the whole text otherwise. *)
Definition start_idx (text : string) : Z := find "[" text.
Definition end_idx (text : string) : Z := (rfind "]" text + 1)%Z.

Definition stage1_input (text : string) : string :=
  if negb (start_idx text =? -1)%Z && negb (end_idx text =? -1)%Z
  then slice text (start_idx text) (end_idx text)
  else text.

(** [None] is the [json.JSONDecodeError] caught at line 61. *)
Definition stage1 (text : string) : option json := Json.json_loads (stage1_input text).

(** Lines 68-93: the loop over [lines] with [current_question]
    ([cq], [None] for Python's [None]) and [current_answer] ([ca]);
    the result is the list appended to [questions_answers], in order. *)
Definition emit (cq : option string) (ca : string) : list qa :=
  match cq with Some q => [(q, strip ca)] | None => [] end.

Fixpoint fallback_lines (lines : list string) (cq : option string) (ca : string) : list qa :=
  match lines with
  | [] => emit cq ca
  | line :: rest =>
      let t := strip line in
      if startswith t "Q" || startswith t "Question" then
        emit cq ca ++
        match split_colon line with
        | Some p => fallback_lines rest (Some (strip p)) ""
        | None => fallback_lines rest cq ca
        end
      else if startswith t "A" || startswith t "Answer" then
        match split_colon line with
        | Some p => fallback_lines rest cq (strip p)
        | None => fallback_lines rest cq ca
        end
      else
        match cq with
        | Some _ => fallback_lines rest cq (ca ++ " " ++ t)%string
        | None => fallback_lines rest cq ca
        end
  end.

(** Lines 63-95: [questions_answers[:num_questions]]. *)
Definition fallback (text : string) (num_questions : nat) : list qa :=
  firstn num_questions (fallback_lines (split_nl text) None "").

(** Lines 48-95: the value returned once [response_text] is known, when
    [json.loads] reaches no runtime limit ([Json.unlimited]). *)
Definition parse (text : string) (num_questions : nat) : json :=
  match stage1 text with
  | Some v => v
  | None => records_json (fallback text num_questions)
  end.

(** Lines 48-95 under the runtime [rt]: [None] when [json.loads] raises an
    exception other than [JSONDecodeError] ([RecursionError], [ValueError]),
    which the handler at line 61 does not catch. *)
Definition parse_rt (rt : Json.runtime) (text : string) (num_questions : nat) : option json :=
  match Json.loads rt (stage1_input text) with
  | Json.Done v => Some v
  | Json.Decode_error => Some (records_json (fallback text num_questions))
  | Json.Raised => None
  end.

(** The outcome of [requests.post(...)]: a raised exception (connection
    error, timeout), or a status code with [Some result.get('response', '')]
    when the body decodes as a JSON object whose [response] field is a
    string, [None] when [response.json()] or the string methods raise. *)
Inductive http_outcome : Type :=
| Transport_error
| Http_response (status_code : Z) (response_text : option string).

(** The value returned by [generate_questions_and_answers] under the
    runtime [rt]; [None] for Python's [None] (lines 96-101), also when an
    exception escapes the parsing and is caught at line 99. *)
Definition generate (rt : Json.runtime) (resp : http_outcome) (num_questions : nat)
    : option json :=
  match resp with
  | Transport_error => None
  | Http_response code body =>
      if (code =? 200)%Z then
        match body with
        | Some text => parse_rt rt text num_questions
        | None => None
        end
      else None
  end.

End Gen.

(** ** [write_results_to_excel] *)
Module Write.
Import Gen.

(** [qa.get(key, '')] *)
Definition qa_get (key : string) (fs : list (string * json)) : json :=
  match dict_get key fs with Some v => v | None => JString "" end.

(** Long layout (dataset_gen.py, lines 115-142).  A seed is the pair
    [(row['Category'], row['Topic'])]. *)
Definition seed : Type := (json * json)%type.

Record out_row : Type := {
  row_category : json;
  row_topic : json;
  row_question : json;
  row_answer : json
}.

(** Lines 127-135: [for qa in qa_results]; a non-dict element has no
    [.get] and raises. *)
Fixpoint qa_rows (s : seed) (xs : list json) : option (list out_row) :=
  match xs with
  | [] => Some []
  | x :: xs' =>
      match x with
      | JObject fs =>
          rest <- qa_rows s xs' ;;
          Some ({| row_category := fst s; row_topic := snd s;
                   row_question := qa_get "question" fs;
                   row_answer := qa_get "answer" fs |} :: rest)
      | _ => None
      end
  end.

(** Lines 126-135: [if qa_results:]; a truthy value other than a list
    (a string, dict, number or [True]) raises inside the loop. *)
Definition pair_rows (s : seed) (qa_results : option json) : option (list out_row) :=
  match qa_results with
  | Some v =>
      if truthy v then
        match v with JArray xs => qa_rows s xs | _ => None end
      else Some []
  | None => Some []
  end.

(** Lines 119-138: [result_data] after the loop, or [None] when an
    exception escapes the loop (then no file is written).  Building the
    [DataFrame] and saving it (lines 141-145) are not modelled. *)
Fixpoint long_write (ps : list (seed * option json)) : option (list out_row) :=
  match ps with
  | [] => Some []
  | (s, o) :: ps' =>
      rows <- pair_rows s o ;;
      rest <- long_write ps' ;;
      Some (rows ++ rest)
  end.

(** Wide layout (dataset_qa.py, lines 114-142).  A row of the input
    [DataFrame] is an association list from column name to cell. *)
Definition row : Type := list (string * json).

Definition digit (i : nat) : string := String (ascii_of_nat (48 + i)) "".

(** [f'Question {i}'] and [f'Answer {i}'] for [i] in [range(1, 6)]. *)
Definition q_col (i : nat) : string := ("Question " ++ digit i)%string.
Definition a_col (i : nat) : string := ("Answer " ++ digit i)%string.

Definition qa_col_names : list string :=
  flat_map (fun i => [q_col i; a_col i]) (seq 1 5).

(** [df[c] = v] *)
Definition set_col (c : string) (v : json) (tbl : list row) : list row :=
  map (dict_set c v) tbl.

(** Lines 115-120: [df.copy()] and the ten added columns. *)
Definition add_qa_columns (tbl : list row) : list row :=
  fold_left (fun t c => set_col c (JString "") t) qa_col_names tbl.

(** The value stored by [df_with_qa.at[idx, col] = v] in a column created
    by [df_with_qa[col] = ''].  With pandas 2 ([str_cols = false]) the
    column has [object] dtype and stores any value.  With pandas 3
    ([str_cols = true]) it has the [str] dtype: a string is stored, a
    missing value ([None] or [NaN]) is stored as [NaN], and any other value
    raises [TypeError]. *)
Definition at_value (str_cols : bool) (v : json) : option json :=
  match v with
  | JString _ => Some v
  | JNull => Some (if str_cols then JNumber "NaN" else JNull)
  | JNumber lx =>
      if str_cols then (if String.eqb lx "NaN" then Some v else None) else Some v
  | _ => if str_cols then None else Some v
  end.

(** Lines 131-136: [for i, qa in enumerate(qa_results[:5])], writing
    [df_with_qa.at[idx, ...]], which touches row [idx] only. *)
Fixpoint fill_cols (str_cols : bool) (i : nat) (xs : list json) (r : row) : option row :=
  match xs with
  | [] => Some r
  | x :: xs' =>
      match x with
      | JObject fs =>
          q <- at_value str_cols (qa_get "question" fs) ;;
          a <- at_value str_cols (qa_get "answer" fs) ;;
          fill_cols str_cols (S i) xs'
            (dict_set (a_col (S i)) a (dict_set (q_col (S i)) q r))
      | _ => None
      end
  end.

(** Lines 130-136 for the row [r] of [df_with_qa]; slicing a truthy
    dict, number or [True], or calling [.get] on a character of a string,
    raises. *)
Definition fill_row (str_cols : bool) (qa_results : option json) (r : row) : option row :=
  match qa_results with
  | Some v =>
      if truthy v then
        match v with JArray xs => fill_cols str_cols 0 (firstn 5 xs) r | _ => None end
      else Some r
  | None => Some r
  end.

Fixpoint fill_rows (str_cols : bool) (tbl : list row) (os : list (option json))
    : option (list row) :=
  match tbl, os with
  | r :: tbl', o :: os' =>
      r' <- fill_row str_cols o r ;;
      rest <- fill_rows str_cols tbl' os' ;;
      Some (r' :: rest)
  | _, _ => Some []
  end.

(** Lines 115-139: the rows of [df_with_qa] after the loop, for the input
    rows paired with the result of their generation call, or [None] when an
    exception escapes the loop (then no file is written).  Saving the table
    (line 142) is not modelled. *)
Definition wide_write (str_cols : bool) (ps : list (row * option json)) : option (list row) :=
  fill_rows str_cols (add_qa_columns (map fst ps)) (map snd ps).

End Write.

(** ** The default output file name of [write_results_to_excel] *)
Module Paths.
Import Py.

(** The loop of [genericpath._splitext] that skips the leading dots of the
    file name: [k] iterations from [filenameIndex = i], returning [True] as
    soon as [p[filenameIndex:filenameIndex+1] != '.']. *)
Fixpoint filename_has_non_dot (p : string) (i : Z) (k : nat) : bool :=
  match k with
  | O => false
  | S k' =>
      if negb (String.eqb (slice p i (i + 1)) ".") then true
      else filename_has_non_dot p (i + 1) k'
  end.

(** [os.path.splitext(p)] on POSIX: [genericpath._splitext(p, '/', None, '.')]. *)
Definition splitext (p : string) : string * string :=
  let sepIndex := rfind "/" p in
  let dotIndex := rfind "." p in
  if (sepIndex <? dotIndex)%Z then
    if filename_has_non_dot p (sepIndex + 1) (Z.to_nat (dotIndex - (sepIndex + 1)))
    then (slice p 0 dotIndex, slice p dotIndex (Z.of_nat (String.length p)))
    else (p, "")
  else (p, "").



(** The model agrees with CPython's [posixpath.splitext] on these paths. *)
Example splitext_tests :
  map splitext ["a.xlsx"; "dir.v1/file"; ".bashrc"; "..x"; "a/.b.c"; "a.b/"; "x."; "/tmp/a..b"; "..."] =
  [("a", ".xlsx"); ("dir.v1/file", ""); (".bashrc", ""); ("..x", ""); ("a/.b", ".c");
   ("a.b/", ""); ("x", "."); ("/tmp/a.", ".b"); ("...", "")].
Proof. vm_compute. reflexivity. Qed.

End Paths.

(** * Properties *)

Module Facts.
Import Py Gen Write.

(** ** Helper lemmas *)

Lemma prefix_A_inv (s : string) :
  String.prefix "A" s = true -> exists s', s = String "A" s'.
Proof.
  destruct s as [|c s']; [discriminate|].
  destruct c as [[] [] [] [] [] [] [] []]; cbn; try discriminate; eauto.
Qed.

Lemma prefix_Q_inv (s : string) :
  String.prefix "Q" s = true -> exists s', s = String "Q" s'.
Proof.
  destruct s as [|c s']; [discriminate|].
  destruct c as [[] [] [] [] [] [] [] []]; cbn; try discriminate; eauto.
Qed.

Lemma end_idx_not_minus_one (text : string) : end_idx text <> (-1)%Z.
Proof.
  unfold end_idx, rfind. destruct (rfind_nat "]" text); lia.
Qed.


Lemma lstrip_idem (s : string) : lstrip (lstrip s) = lstrip s.
Proof.
  induction s as [|c r IH]; [reflexivity|].
  cbn. destruct (is_space c) eqn:E; [exact IH|]. cbn. now rewrite E.
Qed.

Lemma rstrip_idem (s : string) : rstrip (rstrip s) = rstrip s.
Proof.
  induction s as [|c r IH]; [reflexivity|].
  cbn. destruct (is_space c && String.eqb (rstrip r) "") eqn:E; [reflexivity|].
  cbn. rewrite IH, E. reflexivity.
Qed.

Lemma rstrip_nonspace_head (c : ascii) (r : string) :
  is_space c = false -> rstrip (String c r) = String c (rstrip r).
Proof. intros H. cbn. now rewrite H. Qed.

Lemma lstrip_head (s : string) :
  lstrip s = "" \/ exists c r, lstrip s = String c r /\ is_space c = false.
Proof.
  induction s as [|c r IH]; [now left|].
  cbn. destruct (is_space c) eqn:E; [exact IH|]. right. eauto.
Qed.

Lemma strip_idem (s : string) : strip (strip s) = strip s.
Proof.
  unfold strip.
  destruct (lstrip_head s) as [H|(c & r & H & Hc)]; rewrite H; [reflexivity|].
  rewrite (rstrip_nonspace_head c r Hc). cbn. rewrite Hc.
  rewrite <- (rstrip_nonspace_head c r Hc). apply rstrip_idem.
Qed.

Lemma Forall_firstn_of {A} (P : A -> Prop) (n : nat) (l : list A) :
  Forall P l -> Forall P (firstn n l).
Proof.
  revert l. induction n as [|n IH]; intros [|x l] H; cbn; auto.
  inversion H; subst. constructor; auto.
Qed.

(** A record whose two fields are whitespace-trimmed. *)
Definition trimmed_qa (r : qa) : Prop := strip (fst r) = fst r /\ strip (snd r) = snd r.

Lemma emit_trimmed (cq : option string) (ca : string) :
  (forall q, cq = Some q -> strip q = q) -> Forall trimmed_qa (emit cq ca).
Proof.
  intros H. destruct cq as [q|]; cbn; constructor; auto.
  split; [now apply H | apply strip_idem].
Qed.

Lemma fallback_lines_trimmed (lines : list string) (cq : option string) (ca : string) :
  (forall q, cq = Some q -> strip q = q) -> Forall trimmed_qa (fallback_lines lines cq ca).
Proof.
  revert cq ca. induction lines as [|line rest IH]; intros cq ca Hcq; cbn [fallback_lines].
  - now apply emit_trimmed.
  - destruct (startswith (strip line) "Q" || startswith (strip line) "Question").
    + apply Forall_app. split; [now apply emit_trimmed|].
      destruct (split_colon line) as [p|]; apply IH; auto.
      intros q Hq. injection Hq as <-. apply strip_idem.
    + destruct (startswith (strip line) "A" || startswith (strip line) "Answer").
      * destruct (split_colon line); apply IH; auto.
      * destruct cq; apply IH; auto.
Qed.


(** ** Writer lemmas *)

Lemma dict_get_set_same {A} (k : string) (v : A) (d : list (string * A)) :
  dict_get k (dict_set k v d) = Some v.
Proof.
  induction d as [|[k' v'] d IH]; cbn; [now rewrite String.eqb_refl|].
  destruct (String.eqb k k') eqn:E; cbn.
  - now rewrite String.eqb_refl.
  - rewrite E. exact IH.
Qed.

Lemma dict_get_set_other {A} (k k' : string) (v : A) (d : list (string * A)) :
  k' <> k -> dict_get k' (dict_set k v d) = dict_get k' d.
Proof.
  intros Hne. induction d as [|[k0 v0] d IH]; cbn.
  - apply String.eqb_neq in Hne. now rewrite Hne.
  - destruct (String.eqb k k0) eqn:E; cbn.
    + apply String.eqb_eq in E. subst k0.
      apply String.eqb_neq in Hne. now rewrite Hne.
    + destruct (String.eqb k' k0); [reflexivity|exact IH].
Qed.

(** One input row after [df.copy()] and the ten added columns. *)
Definition add_qa_row (r : row) : row :=
  fold_left (fun r c => dict_set c (JString "") r) qa_col_names r.

Lemma fold_set_col (v : json) (names : list string) (tbl : list row) :
  fold_left (fun t c => set_col c v t) names tbl =
  map (fun r => fold_left (fun r c => dict_set c v r) names r) tbl.
Proof.
  revert tbl. induction names as [|c names IH]; intros tbl; cbn.
  - now rewrite map_id.
  - rewrite IH. unfold set_col. now rewrite map_map.
Qed.

Lemma add_qa_columns_rows (tbl : list row) : add_qa_columns tbl = map add_qa_row tbl.
Proof. apply fold_set_col. Qed.

Lemma fold_set_notin (v : json) (names : list string) (r : row) (c : string) :
  ~ In c names -> dict_get c (fold_left (fun r c => dict_set c v r) names r) = dict_get c r.
Proof.
  revert r. induction names as [|c0 names IH]; intros r Hin; cbn; [reflexivity|].
  apply not_in_cons in Hin as [H0 Hin]. rewrite IH by exact Hin.
  apply dict_get_set_other. congruence.
Qed.

Lemma fold_set_in (v : json) (names : list string) (r : row) (c : string) :
  In c names -> dict_get c (fold_left (fun r c => dict_set c v r) names r) = Some v.
Proof.
  revert r. induction names as [|c0 names IH]; intros r Hin; [destruct Hin|]; cbn.
  destruct (in_dec string_dec c names) as [Hc|Hc]; [now apply IH|].
  destruct Hin as [<-|Hin]; [|contradiction].
  rewrite fold_set_notin by exact Hc. apply dict_get_set_same.
Qed.

Lemma wide_write_cons (sc : bool) (r : row) (o : option json) (ps : list (row * option json)) :
  wide_write sc ((r, o) :: ps) =
  (r' <- fill_row sc o (add_qa_row r) ;; rest <- wide_write sc ps ;; Some (r' :: rest)).
Proof.
  unfold wide_write. rewrite !add_qa_columns_rows. reflexivity.
Qed.

Lemma wide_write_app (sc : bool) (pre post : list (row * option json)) :
  wide_write sc (pre ++ post) =
  (a <- wide_write sc pre ;; b <- wide_write sc post ;; Some (a ++ b)).
Proof.
  induction pre as [|[r o] pre IH]; cbn [app].
  - replace (wide_write sc []) with (Some (@nil row)) by reflexivity.
    destruct (wide_write sc post); reflexivity.
  - rewrite !wide_write_cons, IH.
    destruct (fill_row sc o (add_qa_row r)); [|reflexivity].
    destruct (wide_write sc pre); [|reflexivity].
    destruct (wide_write sc post); reflexivity.
Qed.

Lemma long_write_app (pre post : list (seed * option json)) :
  long_write (pre ++ post) = (a <- long_write pre ;; b <- long_write post ;; Some (a ++ b)).
Proof.
  induction pre as [|[s o] pre IH]; cbn [app long_write].
  - destruct (long_write post); reflexivity.
  - rewrite IH. destruct (pair_rows s o); [|reflexivity].
    destruct (long_write pre); [|reflexivity].
    destruct (long_write post); [|reflexivity]. now rewrite app_assoc.
Qed.

(** A generation call that did not succeed: an exception in [requests.post]
    or a status code other than 200. *)
Definition non_success (resp : http_outcome) : Prop :=
  match resp with
  | Transport_error => True
  | Http_response code _ => code <> 200%Z
  end.


(** The long-layout row of one record. *)
Definition record_row (s : seed) (r : qa) : out_row :=
  {| row_category := fst s; row_topic := snd s;
     row_question := JString (fst r); row_answer := JString (snd r) |}.

Lemma qa_rows_records (s : seed) (rs : list qa) :
  qa_rows s (map qa_json rs) = Some (map (record_row s) rs).
Proof.
  induction rs as [|r rs IH]; [reflexivity|].
  cbn [map qa_rows qa_json]. rewrite IH. reflexivity.
Qed.

Lemma pair_rows_records (s : seed) (rs : list qa) :
  pair_rows s (Some (records_json rs)) = Some (map (record_row s) rs).
Proof.
  destruct rs as [|r rs]; [reflexivity|].
  exact (qa_rows_records s (r :: rs)).
Qed.

(** The wide-layout cells written for the [i]-th record [x]. *)
Definition fill_step (i : nat) (x : qa) (r : row) : row :=
  dict_set (a_col (S i)) (JString (snd x)) (dict_set (q_col (S i)) (JString (fst x)) r).

Fixpoint fill_qa (i : nat) (xs : list qa) (r : row) : row :=
  match xs with
  | [] => r
  | x :: xs' => fill_qa (S i) xs' (fill_step i x r)
  end.

Lemma fill_cols_records (sc : bool) (xs : list qa) (i : nat) (r : row) :
  fill_cols sc i (map qa_json xs) r = Some (fill_qa i xs r).
Proof.
  revert i r. induction xs as [|x xs IH]; intros i r; [reflexivity|].
  cbn -[fill_qa]. rewrite IH. reflexivity.
Qed.

Lemma fill_row_records (sc : bool) (rs : list qa) (r : row) :
  fill_row sc (Some (records_json rs)) r = Some (fill_qa 0 (firstn 5 rs) r).
Proof.
  destruct rs as [|x rs]; [reflexivity|].
  unfold fill_row, records_json. cbn [truthy].
  rewrite firstn_map. apply fill_cols_records.
Qed.

Lemma digit_inj (k1 k2 : nat) : k1 < 10 -> k2 < 10 -> digit k1 = digit k2 -> k1 = k2.
Proof.
  unfold digit. intros H1 H2 H. injection H as H.
  apply (f_equal nat_of_ascii) in H.
  rewrite !nat_ascii_embedding in H by lia. lia.
Qed.

Lemma append_cancel_l (p a b : string) : (p ++ a)%string = (p ++ b)%string -> a = b.
Proof.
  induction p as [|c p IH]; cbn; [auto|]. intros H. injection H as H. auto.
Qed.

Lemma q_col_inj (k1 k2 : nat) : k1 < 10 -> k2 < 10 -> q_col k1 = q_col k2 -> k1 = k2.
Proof.
  unfold q_col. intros H1 H2 H. apply append_cancel_l in H.
  now apply digit_inj.
Qed.

Lemma a_col_inj (k1 k2 : nat) : k1 < 10 -> k2 < 10 -> a_col k1 = a_col k2 -> k1 = k2.
Proof.
  unfold a_col. intros H1 H2 H. apply append_cancel_l in H.
  now apply digit_inj.
Qed.

Lemma q_a_col_neq (k1 k2 : nat) : q_col k1 <> a_col k2.
Proof. unfold q_col, a_col. cbn. discriminate. Qed.

Lemma qa_cols_in (k : nat) : 1 <= k <= 5 -> In (q_col k) qa_col_names /\ In (a_col k) qa_col_names.
Proof.
  intros Hk. unfold qa_col_names. split; apply in_flat_map; exists k;
    (split; [apply in_seq; lia | cbn; tauto]).
Qed.

Lemma fill_step_q (i : nat) (x : qa) (r : row) (k : nat) :
  k < 10 -> S i < 10 ->
  dict_get (q_col k) (fill_step i x r) =
  if Nat.eqb k (S i) then Some (JString (fst x)) else dict_get (q_col k) r.
Proof.
  intros Hk Hi. unfold fill_step.
  rewrite dict_get_set_other by apply q_a_col_neq.
  destruct (Nat.eqb_spec k (S i)) as [->|Hne]; [apply dict_get_set_same|].
  apply dict_get_set_other. intros H. apply q_col_inj in H; lia.
Qed.

Lemma fill_step_a (i : nat) (x : qa) (r : row) (k : nat) :
  k < 10 -> S i < 10 ->
  dict_get (a_col k) (fill_step i x r) =
  if Nat.eqb k (S i) then Some (JString (snd x)) else dict_get (a_col k) r.
Proof.
  intros Hk Hi. unfold fill_step.
  destruct (Nat.eqb_spec k (S i)) as [->|Hne]; [apply dict_get_set_same|].
  rewrite dict_get_set_other by (intros H; apply a_col_inj in H; lia).
  apply dict_get_set_other. intros H. symmetry in H. now apply q_a_col_neq in H.
Qed.

Section FillCells.
Variable col : nat -> string.
Variable proj : qa -> string.
Hypothesis Hstep : forall i x r k, k < 10 -> S i < 10 ->
  dict_get (col k) (fill_step i x r) =
  if Nat.eqb k (S i) then Some (JString (proj x)) else dict_get (col k) r.

Lemma fill_qa_get (xs : list qa) (i : nat) (r : row) (k : nat) :
  i + length xs < 10 -> k < 10 ->
  dict_get (col k) (fill_qa i xs r) =
  if Nat.ltb i k && Nat.leb k (i + length xs)
  then Some (JString (proj (nth (k - S i) xs ("", ""))))
  else dict_get (col k) r.
Proof.
  revert i r. induction xs as [|x xs IH]; intros i r Hlen Hk; cbn [fill_qa length].
  - destruct (Nat.ltb_spec i k), (Nat.leb_spec k (i + 0)); cbn; try reflexivity; lia.
  - cbn [length] in Hlen. rewrite IH by lia. rewrite Hstep by lia.
    destruct (Nat.ltb_spec (S i) k), (Nat.leb_spec k (S i + length xs)),
      (Nat.ltb_spec i k), (Nat.leb_spec k (i + S (length xs))),
      (Nat.eqb_spec k (S i)); cbn [andb]; try lia; try reflexivity.
    + replace (k - S i) with (S (k - S (S i))) by lia. reflexivity.
    + subst k. rewrite Nat.sub_diag. reflexivity.
Qed.

End FillCells.

(** The cell [col (S j)] of a wide row built from records [rs]. *)
Lemma wide_cell (col : nat -> string) (proj : qa -> string)
    (Hstep : forall i x r k, k < 10 -> S i < 10 ->
       dict_get (col k) (fill_step i x r) =
       if Nat.eqb k (S i) then Some (JString (proj x)) else dict_get (col k) r)
    (Hin : forall k, 1 <= k <= 5 -> In (col k) qa_col_names)
    (r : row) (rs : list qa) (j : nat) :
  j < 5 ->
  dict_get (col (S j)) (fill_qa 0 (firstn 5 rs) (add_qa_row r)) =
  Some (JString (match nth_error rs j with Some x => proj x | None => "" end)).
Proof.
  intros Hj. pose proof (firstn_le_length 5 rs) as Hl.
  rewrite (fill_qa_get col proj Hstep) by lia.
  destruct (Nat.ltb_spec 0 (S j)), (Nat.leb_spec (S j) (0 + length (firstn 5 rs)));
    cbn [andb]; try lia.
  - replace (S j - S 0) with j by lia.
    assert (E : nth_error (firstn 5 rs) j = Some (nth j (firstn 5 rs) ("", "")))
      by (apply nth_error_nth'; lia).
    rewrite nth_error_firstn in E. destruct (Nat.ltb_spec j 5); [|lia].
    now rewrite E.
  - rewrite length_firstn in *.
    assert (E : nth_error rs j = None) by (apply nth_error_None; lia).
    rewrite E. apply fold_set_in, Hin. lia.
Qed.

Lemma wide_write_records (sc : bool) (br : list (row * list qa)) :
  wide_write sc (map (fun p => (fst p, Some (records_json (snd p)))) br) =
  Some (map (fun p => fill_qa 0 (firstn 5 (snd p)) (add_qa_row (fst p))) br).
Proof.
  induction br as [|[r rs] br IH]; [reflexivity|].
  cbn [map fst snd]. rewrite wide_write_cons, fill_row_records, IH. reflexivity.
Qed.

Lemma fill_cols_other (sc : bool) (xs : list json) (i : nat) (r r' : row) (c : string) :
  fill_cols sc i xs r = Some r' -> i + length xs <= 5 -> ~ In c qa_col_names ->
  dict_get c r' = dict_get c r.
Proof.
  revert i r. induction xs as [|x xs IH]; intros i r H Hlen Hc; cbn in H.
  - now injection H as <-.
  - destruct x; try discriminate. cbn [length] in Hlen.
    destruct (at_value sc (qa_get "question" fields)); [|discriminate].
    destruct (at_value sc (qa_get "answer" fields)); [|discriminate].
    rewrite (IH _ _ H) by (assumption || lia).
    destruct (qa_cols_in (S i)) as [Hq Ha]; [lia|].
    rewrite dict_get_set_other by (intros ->; contradiction).
    apply dict_get_set_other. intros ->. contradiction.
Qed.

Lemma fill_row_other (sc : bool) (o : option json) (r r' : row) (c : string) :
  fill_row sc o r = Some r' -> ~ In c qa_col_names -> dict_get c r' = dict_get c r.
Proof.
  intros H Hc. unfold fill_row in H.
  destruct o as [v|]; [|now injection H as <-].
  destruct (truthy v); [|now injection H as <-].
  destruct v; try discriminate.
  apply (fill_cols_other _ _ _ _ _ _ H); [|exact Hc].
  pose proof (firstn_le_length 5 items). lia.
Qed.


Lemma dict_set_agree {A} (k c : string) (v : A) (d1 d2 : list (string * A)) :
  dict_get c d1 = dict_get c d2 -> dict_get c (dict_set k v d1) = dict_get c (dict_set k v d2).
Proof.
  intros H. destruct (string_dec c k) as [->|Hne].
  - now rewrite !dict_get_set_same.
  - now rewrite !dict_get_set_other by exact Hne.
Qed.

(** Filling two rows that agree on the columns [P] succeeds on both, and the
    results agree on [P]. *)
Lemma fill_cols_agree (sc : bool) (P : string -> Prop) (xs : list json) (i : nat)
    (r1 r2 r1' : row) :
  fill_cols sc i xs r1 = Some r1' ->
  (forall c, P c -> dict_get c r1 = dict_get c r2) ->
  exists r2', fill_cols sc i xs r2 = Some r2' /\ forall c, P c -> dict_get c r1' = dict_get c r2'.
Proof.
  revert i r1 r2. induction xs as [|x xs IH]; intros i r1 r2 H Hag; cbn [fill_cols] in H |- *.
  - injection H as <-. eauto.
  - destruct x; try discriminate.
    destruct (at_value sc (qa_get "question" fields)) as [q|]; [|discriminate].
    destruct (at_value sc (qa_get "answer" fields)) as [a|]; [|discriminate].
    apply (IH _ _ _ H). intros c Hc. apply dict_set_agree, dict_set_agree, Hag, Hc.
Qed.

Lemma fill_row_agree (sc : bool) (P : string -> Prop) (o : option json) (r1 r2 r1' : row) :
  fill_row sc o r1 = Some r1' ->
  (forall c, P c -> dict_get c r1 = dict_get c r2) ->
  exists r2', fill_row sc o r2 = Some r2' /\ forall c, P c -> dict_get c r1' = dict_get c r2'.
Proof.
  intros H Hag. unfold fill_row in *.
  destruct o as [v|]; [|injection H as <-; eauto].
  destruct (truthy v); [|injection H as <-; eauto].
  destruct v; try discriminate. exact (fill_cols_agree _ _ _ _ _ _ _ H Hag).
Qed.

(** ** Fallback-parser lemmas *)

Lemma prefix_empty (s : string) : String.prefix "" s = true.
Proof. destruct s; reflexivity. Qed.

Lemma prefix_head (a : ascii) (p s : string) :
  String.prefix (String a p) s = true -> String.prefix (String a "") s = true.
Proof.
  destruct s as [|b s]; cbn; [discriminate|].
  destruct (ascii_dec a b); [intros _; apply prefix_empty|discriminate].
Qed.

Lemma prefix_same_head (c : ascii) (s : string) : String.prefix (String c "") (String c s) = true.
Proof. cbn. destruct (ascii_dec c c); [apply prefix_empty|contradiction]. Qed.

Lemma prefix_other_head (c d : ascii) (p s : string) :
  c <> d -> String.prefix (String d p) (String c s) = false.
Proof. intros H. cbn. destruct (ascii_dec d c); [congruence|reflexivity]. Qed.

Lemma strip_nonspace_head (c : ascii) (r : string) :
  is_space c = false -> exists r', strip (String c r) = String c r'.
Proof.
  intros H. unfold strip. cbn. rewrite H. rewrite rstrip_nonspace_head by exact H. eauto.
Qed.

Lemma split_colon_after (m t : string) :
  split_colon m = None -> split_colon (m ++ ":" ++ t) = Some t.
Proof.
  induction m as [|c m IH]; [reflexivity|].
  cbn. destruct (Ascii.eqb c ":"); [discriminate|exact IH].
Qed.

Lemma find_nat_app (c : ascii) (a b : string) :
  find_nat c a = None -> find_nat c b = None -> find_nat c (a ++ b) = None.
Proof.
  induction a as [|d a IH]; cbn; [auto|].
  destruct (Ascii.eqb d c); [discriminate|].
  intros Ha Hb. destruct (find_nat c a); [discriminate|]. now rewrite IH.
Qed.

Lemma find_nat_cons_other (c d : ascii) (s : string) :
  Ascii.eqb d c = false -> find_nat c s = None -> find_nat c (String d s) = None.
Proof. intros Hd Hs. cbn. now rewrite Hd, Hs. Qed.

Lemma split_nl_plain (l : string) : find_nat "010" l = None -> split_nl l = [l].
Proof.
  induction l as [|c l IH]; [reflexivity|].
  cbn. destruct (Ascii.eqb c "010"); [discriminate|].
  destruct (find_nat "010" l); [discriminate|]. intros _. now rewrite IH.
Qed.

Lemma split_nl_line (l rest : string) :
  find_nat "010" l = None -> split_nl (l ++ String "010" rest) = l :: split_nl rest.
Proof.
  induction l as [|c l IH]; [reflexivity|].
  cbn. destruct (Ascii.eqb c "010"); [discriminate|].
  destruct (find_nat "010" l); [discriminate|]. intros _. now rewrite IH.
Qed.

(** ["\n".join(lines)] *)
Fixpoint join_nl (ls : list string) : string :=
  match ls with
  | [] => ""
  | [l] => l
  | l :: ls' => (l ++ String "010" (join_nl ls'))%string
  end.

Lemma split_join_nl (ls : list string) :
  ls <> [] -> Forall (fun l => find_nat "010" l = None) ls -> split_nl (join_nl ls) = ls.
Proof.
  induction ls as [|l ls IH]; intros Hne H; [contradiction|].
  inversion H as [|? ? Hl Hls]; subst.
  destruct ls as [|l2 ls].
  - now apply split_nl_plain.
  - change (join_nl (l :: l2 :: ls)) with (l ++ String "010" (join_nl (l2 :: ls)))%string.
    rewrite split_nl_line by exact Hl. rewrite IH; [reflexivity|discriminate|exact Hls].
Qed.

Lemma find_bracket_join (ls : list string) :
  Forall (fun l => find_nat "[" l = None) ls -> find_nat "[" (join_nl ls) = None.
Proof.
  induction ls as [|l ls IH]; intros H; [reflexivity|].
  inversion H as [|? ? Hl Hls]; subst.
  destruct ls as [|l2 ls]; [exact Hl|].
  change (join_nl (l :: l2 :: ls)) with (l ++ String "010" (join_nl (l2 :: ls)))%string.
  apply find_nat_app; [exact Hl|].
  apply find_nat_cons_other; [reflexivity|]. now apply IH.
Qed.

Lemma join_nl_head (c : ascii) (x : string) (ls : list string) :
  exists y, join_nl (String c x :: ls) = String c y.
Proof. destruct ls; cbn; eauto. Qed.

Lemma json_loads_Q (r : string) : Json.json_loads (String "Q" r) = None.
Proof.
  unfold Json.json_loads. cbn [String.length].
  replace (2 * S (String.length r) + 2)%nat with (S (2 * String.length r + 3))%nat by lia.
  reflexivity.
Qed.

Lemma stage1_input_no_bracket (text : string) :
  find_nat "[" text = None -> stage1_input text = text.
Proof.
  intros H. unfold stage1_input, start_idx, find. now rewrite H.
Qed.

(** A block of lines: a question line [q_marker:q_text], an answer line
    [a_marker:a_text], then continuation lines. *)
Record block : Type := {
  q_marker : string;
  q_text : string;
  a_marker : string;
  a_text : string;
  continuation : list string
}.

Definition block_lines (b : block) : list string :=
  (q_marker b ++ ":" ++ q_text b)%string :: (a_marker b ++ ":" ++ a_text b)%string
  :: continuation b.

(** The markers start with 'Q' and 'A' and hold no colon; no continuation
    line starts, once trimmed, with 'Q' or 'A'; no line holds a newline or
    a '['. *)
Definition block_ok (b : block) : Prop :=
  String.prefix "Q" (q_marker b) = true /\ split_colon (q_marker b) = None /\
  String.prefix "A" (a_marker b) = true /\ split_colon (a_marker b) = None /\
  Forall (fun c => startswith (strip c) "Q" = false /\ startswith (strip c) "A" = false)
    (continuation b) /\
  Forall (fun l => find_nat "010" l = None /\ find_nat "[" l = None) (block_lines b).

Definition block_answer (b : block) : string :=
  fold_left (fun acc c => (acc ++ " " ++ strip c)%string) (continuation b) (strip (a_text b)).

Definition block_record (b : block) : qa := (strip (q_text b), strip (block_answer b)).

Lemma fallback_q_line (m t : string) (rest : list string) (cq : option string) (ca : string) :
  String.prefix "Q" m = true -> split_colon m = None ->
  fallback_lines ((m ++ ":" ++ t)%string :: rest) cq ca =
  emit cq ca ++ fallback_lines rest (Some (strip t)) "".
Proof.
  intros Hq Hc. destruct (prefix_Q_inv _ Hq) as [m' ->].
  destruct (strip_nonspace_head "Q" (m' ++ ":" ++ t) eq_refl) as [r' Hs].
  cbn [fallback_lines]. change (String "Q" m' ++ ":" ++ t)%string with (String "Q" (m' ++ ":" ++ t)).
  rewrite Hs. unfold startswith. rewrite prefix_same_head. cbn [orb].
  change (String "Q" (m' ++ ":" ++ t)) with (String "Q" m' ++ ":" ++ t)%string.
  now rewrite split_colon_after.
Qed.

Lemma fallback_a_line (m t : string) (rest : list string) (q ca : string) :
  String.prefix "A" m = true -> split_colon m = None ->
  fallback_lines ((m ++ ":" ++ t)%string :: rest) (Some q) ca =
  fallback_lines rest (Some q) (strip t).
Proof.
  intros Ha Hc. destruct (prefix_A_inv _ Ha) as [m' ->].
  destruct (strip_nonspace_head "A" (m' ++ ":" ++ t) eq_refl) as [r' Hs].
  cbn [fallback_lines]. change (String "A" m' ++ ":" ++ t)%string with (String "A" (m' ++ ":" ++ t)).
  rewrite Hs. unfold startswith.
  rewrite !prefix_other_head by discriminate. rewrite prefix_same_head. cbn [orb].
  change (String "A" (m' ++ ":" ++ t)) with (String "A" m' ++ ":" ++ t)%string.
  now rewrite split_colon_after.
Qed.

Lemma fallback_continuations (cs rest : list string) (q ca : string) :
  Forall (fun c => startswith (strip c) "Q" = false /\ startswith (strip c) "A" = false) cs ->
  fallback_lines (cs ++ rest) (Some q) ca =
  fallback_lines rest (Some q) (fold_left (fun acc c => (acc ++ " " ++ strip c)%string) cs ca).
Proof.
  revert ca. induction cs as [|c cs IH]; intros ca H; [reflexivity|].
  inversion H as [|? ? [HQ HA] Hcs]; subst.
  cbn [app fallback_lines fold_left]. unfold startswith in *.
  rewrite HQ, HA.
  destruct (String.prefix "Question" (strip c)) eqn:E1.
  { apply prefix_head in E1. congruence. }
  destruct (String.prefix "Answer" (strip c)) eqn:E2.
  { apply prefix_head in E2. congruence. }
  cbn [orb]. now apply IH.
Qed.

Lemma fallback_blocks (bs : list block) (cq : option string) (ca : string) :
  Forall block_ok bs ->
  fallback_lines (flat_map block_lines bs) cq ca = emit cq ca ++ map block_record bs.
Proof.
  revert cq ca. induction bs as [|b bs IH]; intros cq ca H; cbn [flat_map map].
  - now rewrite app_nil_r.
  - inversion H as [|? ? (Hq & Hqc & Ha & Hac & Hcs & _) Hbs]; subst.
    unfold block_lines at 1. cbn [app].
    rewrite fallback_q_line by assumption.
    rewrite fallback_a_line by assumption.
    rewrite fallback_continuations by assumption.
    rewrite IH by exact Hbs. reflexivity.
Qed.

Definition nl : string := String "010" "".


Lemma Forall_flat_map_of {A B} (P : B -> Prop) (f : A -> list B) (l : list A) :
  Forall (fun a => Forall P (f a)) l -> Forall P (flat_map f l).
Proof.
  induction l as [|a l IH]; intros H; cbn; [constructor|].
  inversion H; subst. apply Forall_app. auto.
Qed.

Lemma blocks_plain (bs : list block) :
  Forall block_ok bs ->
  Forall (fun l => find_nat "010" l = None /\ find_nat "[" l = None) (flat_map block_lines bs).
Proof.
  intros H. apply Forall_flat_map_of. eapply Forall_impl; [|exact H].
  intros b (_ & _ & _ & _ & _ & Hp). exact Hp.
Qed.

(** The whole pipeline of [parse] on a text made of well-formed blocks. *)
Lemma parse_blocks (bs : list block) (n : nat) :
  Forall block_ok bs ->
  parse (join_nl (flat_map block_lines bs)) n = records_json (firstn n (map block_record bs)).
Proof.
  intros H. pose proof (blocks_plain bs H) as Hp.
  unfold parse, stage1.
  rewrite stage1_input_no_bracket
    by (apply find_bracket_join; eapply Forall_impl; [|exact Hp]; intros l [_ Hl]; exact Hl).
  destruct bs as [|b bs']; [destruct n; reflexivity|].
  inversion H as [|? ? (Hq & _) _]; subst.
  assert (Hj : Json.json_loads (join_nl (flat_map block_lines (b :: bs'))) = None).
  { destruct (prefix_Q_inv _ Hq) as [m' Hm].
    cbn [flat_map]. unfold block_lines at 1. rewrite Hm. cbn [app].
    change (String "Q" m' ++ ":" ++ q_text b)%string with (String "Q" (m' ++ ":" ++ q_text b)).
    destruct (join_nl_head "Q" (m' ++ ":" ++ q_text b)
                ((a_marker b ++ ":" ++ a_text b)%string :: continuation b
                   ++ flat_map block_lines bs')) as [y Hy].
    rewrite Hy. apply json_loads_Q. }
  rewrite Hj. unfold fallback.
  rewrite split_join_nl.
  - rewrite fallback_blocks by exact H. reflexivity.
  - cbn [flat_map block_lines app]. discriminate.
  - eapply Forall_impl; [|exact Hp]. intros l [Hl _]. exact Hl.
Qed.

(** The fallback example of the spec. *)
Definition example_block : block :=
  {| q_marker := "Q"; q_text := " What year?"; a_marker := "A"; a_text := " 1200s";
     continuation := ["More detail here."] |}.

Definition example_text : string :=
  ("Q: What year?" ++ nl ++ "A: 1200s" ++ nl ++ "More detail here.")%string.

Lemma example_block_ok : block_ok example_block.
Proof.
  repeat split; repeat constructor.
Qed.

Lemma example_text_blocks : example_text = join_nl (flat_map block_lines [example_block]).
Proof. reflexivity. Qed.

(** The record list of a fallback run, rendered as the Python list. *)
Definition six_records : list qa :=
  [("q1", "a1"); ("q2", "a2"); ("q3", "a3"); ("q4", "a4"); ("q5", "a5"); ("q6", "a6")].

(** [json.dumps(rs, separators=(',', ':'))] for records whose strings need
    no escape. *)
Definition dumps_record (r : qa) : string :=
  ("{" ++ quoted "question" ++ ":" ++ quoted (fst r) ++ ","
       ++ quoted "answer" ++ ":" ++ quoted (snd r) ++ "}")%string.

Fixpoint dumps_items (rs : list qa) : string :=
  match rs with
  | [] => ""
  | [r] => dumps_record r
  | r :: rs' => (dumps_record r ++ "," ++ dumps_items rs')%string
  end.

Definition dumps_records (rs : list qa) : string := ("[" ++ dumps_items rs ++ "]")%string.

Definition six_text : string := dumps_records six_records.

(** ** C1 *)

(** C1 (code_bug): [end_idx = rfind(']') + 1] is never -1, so the guard
    [end_idx != -1] never fails: a text with a '[' but no ']' has its empty
    slice [text[start_idx:0]] decoded instead of the whole text.  On the
    JSON string literal holding one '[', the whole-text decode would give
    that string, but the code decodes the empty slice and falls back to an
    empty list. *)
Theorem stage1_decodes_empty_slice_without_close :
  (forall text, end_idx text <> (-1)%Z) /\
  start_idx (quoted "[") = 1%Z /\ end_idx (quoted "[") = 0%Z /\
  stage1_input (quoted "[") = "" /\
  Json.json_loads (quoted "[") = Some (JString "[") /\
  parse (quoted "[") 5 = JArray [].
Proof.
  split; [exact end_idx_not_minus_one|].
  vm_compute. repeat split.
Qed.

(** ** C2 *)

(** C2 (code_bug): the stage-1 path returns the decoded array as it is,
    without the [[:num_questions]] truncation of the fallback path: the
    well-formed array of six records, with [num_questions = 5], gives all
    six records back. *)
Theorem stage1_result_not_truncated :
  parse six_text 5 = records_json six_records /\
  List.length six_records = 6%nat.
Proof. vm_compute. split; reflexivity. Qed.

(** ** C8 *)

(** C8: while a question is open, a line whose trimmed text starts with
    'Q' and which has no colon emits the open record and leaves the
    question and the answer accumulator as they were; as the last line it
    makes the same record appear twice. *)
Theorem q_line_without_colon_reemits (q ca line : string) (rest : list string)
    (Hq : startswith (strip line) "Q" = true) (Hc : split_colon line = None) :
  fallback_lines (line :: rest) (Some q) ca = (q, strip ca) :: fallback_lines rest (Some q) ca /\
  fallback_lines [line] (Some q) ca = [(q, strip ca); (q, strip ca)].
Proof.
  split; cbn [fallback_lines]; rewrite Hq, Hc; reflexivity.
Qed.

Lemma q_line_without_colon_reemits_witness :
  (startswith (strip "Quick") "Q" = true /\ split_colon "Quick" = None) /\
  fallback_lines ["Quick"] (Some "a") "b" = [("a", "b"); ("a", "b")].
Proof.
  split; [split; reflexivity|].
  apply (q_line_without_colon_reemits "a" "b" "Quick" [] eq_refl eq_refl).
Defined.

(** ** C10 *)

(** C10: while a question is open, a line whose trimmed text starts with
    'A' and which has no colon changes nothing: it neither sets the answer
    nor is appended to it. *)
Theorem a_line_without_colon_dropped (q ca line : string) (rest : list string)
    (Ha : startswith (strip line) "A" = true) (Hc : split_colon line = None) :
  fallback_lines (line :: rest) (Some q) ca = fallback_lines rest (Some q) ca.
Proof.
  cbn [fallback_lines].
  unfold startswith in *.
  destruct (prefix_A_inv _ Ha) as [s' Hs]. rewrite Hs. cbn.
  replace (String.prefix "" s') with true by (destruct s'; reflexivity).
  cbn. rewrite Hc. reflexivity.
Qed.

Lemma a_line_without_colon_dropped_witness :
  (startswith (strip "And his father.") "A" = true /\
   split_colon "And his father." = None) /\
  fallback_lines ["And his father."] (Some "Who?") "Marco Polo" =
    fallback_lines [] (Some "Who?") "Marco Polo".
Proof.
  split; [split; reflexivity|].
  apply (a_line_without_colon_dropped "Who?" "Marco Polo" "And his father." [] eq_refl eq_refl).
Defined.

(** ** C3 *)

(** C3 (counterexample): nothing discards a record with an empty field: a
    question line with no answer line yields a record whose answer is empty. *)
Lemma parse_keeps_empty_answer :
  parse "Q: What?" 5 = records_json [("What?", "")] /\ strip "" = "".
Proof. vm_compute. split; reflexivity. Qed.

(** C3 (amended): when the stage-1 decode fails, the result is the fallback
    list, and each of its records has a question and an answer that are
    already whitespace-trimmed (either may be empty). *)
Theorem fallback_fields_trimmed (text : string) (n : nat) (H : stage1 text = None) :
  parse text n = records_json (fallback text n) /\
  Forall (fun r => strip (fst r) = fst r /\ strip (snd r) = snd r) (fallback text n).
Proof.
  split; [unfold parse; now rewrite H|].
  apply Forall_firstn_of, fallback_lines_trimmed. discriminate.
Qed.

Lemma fallback_fields_trimmed_witness :
  stage1 "Q: What?" = None /\
  parse "Q: What?" 5 = records_json (fallback "Q: What?" 5) /\
  Forall (fun r => strip (fst r) = fst r /\ strip (snd r) = snd r) (fallback "Q: What?" 5).
Proof.
  assert (H : stage1 "Q: What?" = None) by (vm_compute; reflexivity).
  split; [exact H|]. exact (fallback_fields_trimmed "Q: What?" 5 H).
Defined.

(** ** C5 *)

(** C5: a pair whose generation call did not succeed yields [None]; in the
    long layout it adds no row, in the wide layout its row keeps the input
    cells with all ten QA cells empty, and in both layouts the pairs before
    and after it are processed exactly as without it (under any runtime
    of [json.loads] and with pandas 2 or 3). *)
Theorem failed_pair_isolated (rt : Json.runtime) (sc : bool) (resp : http_outcome) (n : nat)
    (Hfail : non_success resp) :
  generate rt resp n = None /\
  (forall pre post s,
     long_write (pre ++ (s, generate rt resp n) :: post) =
     (a <- long_write pre ;; b <- long_write post ;; Some (a ++ b))) /\
  (forall pre post r,
     wide_write sc (pre ++ (r, generate rt resp n) :: post) =
     (a <- wide_write sc pre ;; b <- wide_write sc post ;; Some (a ++ add_qa_row r :: b))) /\
  (forall r c, In c qa_col_names -> dict_get c (add_qa_row r) = Some (JString "")).
Proof.
  assert (Hnone : generate rt resp n = None).
  { destruct resp as [|code body]; [reflexivity|]. cbn in Hfail |- *.
    destruct (Z.eqb_spec code 200); [contradiction|reflexivity]. }
  rewrite Hnone. split; [reflexivity|]. split; [|split].
  - intros pre post s. rewrite long_write_app. cbn [long_write pair_rows app].
    destruct (long_write pre); [|reflexivity].
    destruct (long_write post); reflexivity.
  - intros pre post r. rewrite wide_write_app, wide_write_cons. cbn [fill_row].
    destruct (wide_write sc pre); [|reflexivity].
    destruct (wide_write sc post); reflexivity.
  - intros r c Hc. now apply fold_set_in.
Qed.

Lemma failed_pair_isolated_witness :
  non_success (Http_response 500 None) /\
  long_write ([((JString "History", JString "Silk Road"),
                generate Json.unlimited (Http_response 500 None) 5)]
              ++ ((JString "History", JString "Tea"),
                  generate Json.unlimited (Http_response 500 None) 5)
              :: [((JString "Art", JString "Jade"),
                   generate Json.unlimited (Http_response 200 (Some "Q: What?")) 5)]) =
  (a <- long_write [((JString "History", JString "Silk Road"),
                     generate Json.unlimited (Http_response 500 None) 5)] ;;
   b <- long_write [((JString "Art", JString "Jade"),
                     generate Json.unlimited (Http_response 200 (Some "Q: What?")) 5)] ;;
   Some (a ++ b)).
Proof.
  assert (H : non_success (Http_response 500 None)) by (cbn; discriminate).
  split; [exact H|].
  apply (proj1 (proj2 (failed_pair_isolated Json.unlimited false (Http_response 500 None) 5 H))).
Defined.

(** ** C6 *)

(** C6: on a batch result (each seed with its records), the long layout
    has one row per record, in order, so its row count is the sum of the
    record counts (a seed without records adds none); the wide layout has
    one row per seed whose cells [Question j]/[Answer j], j = 1..5, hold the
    j-th record or the empty string, records beyond the fifth being unused
    (with pandas 2 or 3). *)
Theorem one_row_per_record_and_per_seed (sc : bool)
    (br_long : list (seed * list qa)) (br_wide : list (row * list qa)) :
  long_write (map (fun p => (fst p, Some (records_json (snd p)))) br_long) =
    Some (flat_map (fun p => map (record_row (fst p)) (snd p)) br_long) /\
  length (flat_map (fun p => map (record_row (fst p)) (snd p)) br_long) =
    list_sum (map (fun p => length (snd p)) br_long) /\
  exists out,
    wide_write sc (map (fun p => (fst p, Some (records_json (snd p)))) br_wide) = Some out /\
    length out = length br_wide /\
    forall i r rs r', nth_error br_wide i = Some (r, rs) -> nth_error out i = Some r' ->
    forall j, j < 5 ->
      dict_get (q_col (S j)) r' =
        Some (JString (match nth_error rs j with Some x => fst x | None => "" end)) /\
      dict_get (a_col (S j)) r' =
        Some (JString (match nth_error rs j with Some x => snd x | None => "" end)).
Proof.
  split; [|split].
  - induction br_long as [|[s rs] br IH]; [reflexivity|].
    cbn [map long_write fst snd flat_map]. rewrite pair_rows_records, IH. reflexivity.
  - rewrite length_flat_map. f_equal. apply map_ext. intros p. apply length_map.
  - eexists. split; [apply wide_write_records|]. split; [apply length_map|].
    intros i r rs r' Hbr Hout j Hj.
    rewrite nth_error_map, Hbr in Hout. cbn in Hout. injection Hout as <-.
    split.
    + apply (wide_cell q_col fst fill_step_q); [|exact Hj].
      intros k Hk. now apply qa_cols_in.
    + apply (wide_cell a_col snd fill_step_a); [|exact Hj].
      intros k Hk. now apply qa_cols_in.
Qed.

(** ** C9 *)

(** An input row that already has a column named [Question 1]. *)
Definition row_with_question_1 : row :=
  [("Category", JString "History"); ("Topic", JString "Silk Road");
   ("Question 1", JString "old")].

(** C9 (counterexample): an input column whose name is one of the ten
    added names is overwritten: [df_with_qa['Question 1'] = ''] resets it,
    even for a pair without records (with pandas 2 or 3). *)
Lemma wide_overwrites_same_named_column :
  dict_get "Question 1" row_with_question_1 = Some (JString "old") /\
  forall sc,
    option_map (map (dict_get "Question 1")) (wide_write sc [(row_with_question_1, None)]) =
      Some [Some (JString "")].
Proof. split; [reflexivity|]. intros [|]; vm_compute; reflexivity. Qed.

(** C9 (amended): whenever the wide-layout loop completes (pandas 2 or 3),
    it keeps one row per input row; every column not named
    [Question 1..5] / [Answer 1..5] keeps its value in every row; and the
    ten QA cells of a row are reset to the empty string and then filled:
    they are the cells that the same result gives to a row whose only
    cells are the ten empty QA cells, whatever the input row held there. *)
Theorem wide_keeps_other_columns (sc : bool) (ps : list (row * option json)) (out : list row)
    (H : wide_write sc ps = Some out) :
  length out = length ps /\
  (forall i r o r' c, nth_error ps i = Some (r, o) -> nth_error out i = Some r' ->
     ~ In c qa_col_names -> dict_get c r' = dict_get c r) /\
  (forall i r o r', nth_error ps i = Some (r, o) -> nth_error out i = Some r' ->
     exists e, fill_row sc o (add_qa_row []) = Some e /\
       forall c, In c qa_col_names -> dict_get c r' = dict_get c e).
Proof.
  revert out H. induction ps as [|[r o] ps IH]; intros out H.
  - injection H as <-. split; [reflexivity|]. split; intros [|i]; discriminate.
  - rewrite wide_write_cons in H.
    destruct (fill_row sc o (add_qa_row r)) as [r1|] eqn:E1; [|discriminate].
    destruct (wide_write sc ps) as [rest|] eqn:E2; [|discriminate].
    injection H as <-. destruct (IH rest eq_refl) as (Hlen & Hcells & Hqa).
    split; [cbn; now rewrite Hlen|]. split.
    + intros [|i] r0 o0 r' c Hp Hout Hc; cbn in Hp, Hout.
      * injection Hp as <- <-. injection Hout as <-.
        rewrite (fill_row_other _ _ _ _ _ E1 Hc). now apply fold_set_notin.
      * exact (Hcells i r0 o0 r' c Hp Hout Hc).
    + intros [|i] r0 o0 r' Hp Hout; cbn in Hp, Hout.
      * injection Hp as <- <-. injection Hout as <-.
        destruct (fill_row_agree sc (fun c => In c qa_col_names) o (add_qa_row r)
                    (add_qa_row []) r1 E1) as (e & He & Hag).
        { intros c Hc. unfold add_qa_row. now rewrite !fold_set_in. }
        exists e. split; [exact He|]. exact Hag.
      * exact (Hqa i r0 o0 r' Hp Hout).
Qed.

Lemma wide_keeps_other_columns_witness :
  wide_write false [(row_with_question_1, Some (records_json [("Who?", "Marco Polo")]))] =
    Some [fill_qa 0 [("Who?", "Marco Polo")] (add_qa_row row_with_question_1)] /\
  (length [fill_qa 0 [("Who?", "Marco Polo")] (add_qa_row row_with_question_1)] =
     length [(row_with_question_1, Some (records_json [("Who?", "Marco Polo")]))] /\
   (forall i r o r' c,
      nth_error [(row_with_question_1, Some (records_json [("Who?", "Marco Polo")]))] i =
        Some (r, o) ->
      nth_error [fill_qa 0 [("Who?", "Marco Polo")] (add_qa_row row_with_question_1)] i =
        Some r' ->
      ~ In c qa_col_names -> dict_get c r' = dict_get c r) /\
   (forall i r o r',
      nth_error [(row_with_question_1, Some (records_json [("Who?", "Marco Polo")]))] i =
        Some (r, o) ->
      nth_error [fill_qa 0 [("Who?", "Marco Polo")] (add_qa_row row_with_question_1)] i =
        Some r' ->
      exists e, fill_row false o (add_qa_row []) = Some e /\
        forall c, In c qa_col_names -> dict_get c r' = dict_get c e)).
Proof.
  assert (H : wide_write false [(row_with_question_1, Some (records_json [("Who?", "Marco Polo")]))] =
    Some [fill_qa 0 [("Who?", "Marco Polo")] (add_qa_row row_with_question_1)])
    by (vm_compute; reflexivity).
  split; [exact H|]. exact (wide_keeps_other_columns _ _ _ H).
Defined.

(** ** C7 *)

(** C7 (counterexample): a continuation line that starts with 'A' (and has
    no colon) is not joined to the answer. *)
Lemma continuation_starting_with_A_dropped :
  parse ("Question: Who?" ++ nl ++ "Answer: Marco Polo" ++ nl ++ "And his father.") 5 =
    records_json [("Who?", "Marco Polo")] /\
  parse ("Question: Who?" ++ nl ++ "Answer: Marco Polo" ++ nl ++ "And his father.") 5 <>
    records_json [("Who?", "Marco Polo And his father.")].
Proof. vm_compute. split; [reflexivity|discriminate]. Qed.

(** C7 (amended): on a text made of blocks, each a question line
    (a marker starting with 'Q', a colon, the question), an answer line
    (a marker starting with 'A', a colon, the answer) and continuation lines
    that, once trimmed, start with neither 'Q' nor 'A', with no '[' anywhere,
    parse returns one record per block, truncated to [n]: the trimmed
    question, and the trimmed answer followed by each trimmed continuation
    line after one space, the whole trimmed; on the spec's example it
    returns exactly the one record ("What year?", "1200s More detail here.")
    for every [n >= 1]. *)
Theorem fallback_alternating_blocks (bs : list block) (n : nat) (H : Forall block_ok bs) :
  parse (join_nl (flat_map block_lines bs)) n = records_json (firstn n (map block_record bs)) /\
  (forall m, 1 <= m ->
     parse example_text m = records_json [("What year?", "1200s More detail here.")]).
Proof.
  split; [now apply parse_blocks|].
  intros m Hm. rewrite example_text_blocks, parse_blocks.
  - destruct m as [|m]; [lia|]. cbn [map firstn]. rewrite firstn_nil. vm_compute. reflexivity.
  - constructor; [apply example_block_ok|constructor].
Qed.

Lemma fallback_alternating_blocks_witness :
  Forall block_ok [example_block] /\
  parse (join_nl (flat_map block_lines [example_block])) 5 =
    records_json (firstn 5 (map block_record [example_block])) /\
  records_json (firstn 5 (map block_record [example_block])) =
    records_json [("What year?", "1200s More detail here.")].
Proof.
  assert (H : Forall block_ok [example_block])
    by (constructor; [apply example_block_ok|constructor]).
  split; [exact H|]. split; [|reflexivity].
  exact (proj1 (fallback_alternating_blocks [example_block] 5 H)).
Defined.

End Facts.


(** * Further properties of the pipeline *)

Module Extras.
Import Py Gen Write Paths Facts.

(** ** Helper lemmas: strings, the decoder, the fallback, the writers, paths *)

Lemma str_app_assoc (a b c : string) : ((a ++ b) ++ c)%string = (a ++ b ++ c)%string.
Proof. induction a as [|x a IH]; cbn; [reflexivity|now rewrite IH]. Qed.

Lemma str_app_nil_r (a : string) : (a ++ "")%string = a.
Proof. induction a as [|x a IH]; cbn; [reflexivity|now rewrite IH]. Qed.

Lemma str_length_app (a b : string) : String.length (a ++ b) = String.length a + String.length b.
Proof. induction a as [|x a IH]; cbn; [reflexivity|now rewrite IH]. Qed.

(** A character that [json.dumps] writes as itself and the decoder reads
    back as itself inside a string: not a double quote, not a backslash, not a control
    character. *)
Definition plain_char (c : ascii) : bool :=
  negb (Ascii.eqb c "034"%char) && negb (Ascii.eqb c "\") && (32 <=? nat_of_ascii c)%nat.

Fixpoint plain (s : string) : bool :=
  match s with
  | EmptyString => true
  | String c r => plain_char c && plain r
  end.

Definition plain_record (r : qa) : bool := plain (fst r) && plain (snd r).

Lemma scanstring_plain (s rest : string) :
  plain s = true -> Json.scanstring (s ++ String "034" rest) = Some (s, rest).
Proof.
  induction s as [|c s IH]; [reflexivity|].
  cbn [plain]. intros H. apply andb_prop in H as [Hc Hs].
  unfold plain_char in Hc. apply andb_prop in Hc as [Hc H32]. apply andb_prop in Hc as [Hq Hb].
  apply negb_true_iff in Hq, Hb. apply Nat.leb_le in H32.
  cbn [append Json.scanstring]. rewrite Hq, Hb.
  replace (nat_of_ascii c <? 32)%nat with false by (symmetry; apply Nat.ltb_ge; lia).
  rewrite (IH Hs). reflexivity.
Qed.

Lemma scan_record (f d : nat) (r : qa) (rest : string) :
  plain_record r = true ->
  Json.scan_once Json.unlimited (4 + f) d (dumps_record r ++ rest) = Json.Done (qa_json r, rest).
Proof.
  destruct r as [q a]. unfold plain_record; cbn [fst snd].
  intros H. apply andb_prop in H as [Hq Ha].
  unfold dumps_record, quoted, dq. cbn [fst snd].
  rewrite !str_app_assoc. cbn [append].
  simpl. rewrite (scanstring_plain q) by exact Hq. simpl.
  rewrite (scanstring_plain a) by exact Ha. reflexivity.
Qed.

Lemma length_dumps_items (rs : list qa) : List.length rs <= String.length (dumps_items rs).
Proof.
  induction rs as [|r rs IH]; [cbn; lia|].
  destruct rs as [|r2 rs].
  - cbn. lia.
  - change (dumps_items (r :: r2 :: rs)) with (dumps_record r ++ "," ++ dumps_items (r2 :: rs))%string.
    rewrite !str_length_app. cbn [List.length String.length] in *. lia.
Qed.

Lemma skip_ws_dumps_items (r : qa) (rs : list qa) (x : string) :
  Json.skip_ws (dumps_items (r :: rs) ++ x) = (dumps_items (r :: rs) ++ x)%string.
Proof. destruct rs; reflexivity. Qed.

Lemma array_items_records (rs : list qa) (acc : list json) (f d : nat) (rest : string) :
  rs <> [] -> forallb plain_record rs = true -> List.length rs + 4 <= f ->
  Json.array_items Json.unlimited f d (dumps_items rs ++ "]" ++ rest) acc =
  Json.Done (JArray (rev acc ++ map qa_json rs), rest).
Proof.
  revert acc f. induction rs as [|r rs IH]; intros acc f Hne Hp Hf; [contradiction|].
  cbn [forallb] in Hp. apply andb_prop in Hp as [Hr Hp].
  destruct f as [|f]; [cbn in Hf; lia|].
  destruct rs as [|r2 rs].
  - cbn [dumps_items]. cbn [Json.array_items].
    replace f with (4 + (f - 4)) by (cbn in Hf; lia).
    rewrite scan_record by exact Hr. reflexivity.
  - change (dumps_items (r :: r2 :: rs)) with (dumps_record r ++ "," ++ dumps_items (r2 :: rs))%string.
    rewrite str_app_assoc. cbn [Json.array_items].
    replace f with (4 + (f - 4)) by (cbn in Hf; lia).
    rewrite scan_record by exact Hr. cbn [snd fst].
    rewrite str_app_assoc. cbn [append Json.skip_ws].
    replace (Json.is_ws ",") with false by reflexivity.
    replace ("," =? "]")%char with false by reflexivity.
    replace ("," =? ",")%char with true by reflexivity. cbn iota beta.
    rewrite skip_ws_dumps_items.
    replace (4 + (f - 4)) with f by (cbn in Hf; lia).
    change (String "]" rest) with ("]" ++ rest)%string.
    rewrite IH; [|discriminate|exact Hp|cbn in Hf |- *; lia].
    cbn [rev map]. now rewrite <- app_assoc.
Qed.

Lemma dumps_items_head (r : qa) (rs : list qa) (x : string) :
  exists y, (dumps_items (r :: rs) ++ x)%string = String "{" y.
Proof. destruct rs; eexists; reflexivity. Qed.

Lemma json_loads_dumps (rs : list qa) :
  forallb plain_record rs = true -> Json.json_loads (dumps_records rs) = Some (records_json rs).
Proof.
  intros Hp. destruct rs as [|r rs]; [reflexivity|].
  unfold Json.json_loads, Json.loads, dumps_records.
  set (L := String.length _).
  assert (HL : List.length (r :: rs) + 2 <= L).
  { unfold L. rewrite str_length_app. cbn [String.length]. rewrite str_length_app.
    pose proof (length_dumps_items (r :: rs)). cbn [String.length] in *. lia. }
  replace (2 * L + 2) with (S (2 * L + 1)) by lia.
  cbn [append Json.skip_ws Json.is_ws Ascii.eqb]. 
  replace (Json.is_ws "[") with false by reflexivity. cbn iota beta.
  cbn [Json.scan_once]. replace ("[" =? "034")%char with false by reflexivity.
  replace ("[" =? "{")%char with false by reflexivity.
  replace ("[" =? "[")%char with true by reflexivity. cbn iota beta.
  replace (Json.enter_ok Json.unlimited 0) with true by reflexivity. cbn iota beta.
  rewrite skip_ws_dumps_items.
  destruct (dumps_items_head r rs "]") as [y Hy]. rewrite Hy.
  replace ("{" =? "]")%char with false by reflexivity. cbn iota beta.
  rewrite <- Hy. change "]" with ("]" ++ "")%string.
  rewrite array_items_records; [reflexivity|discriminate|exact Hp|lia].
Qed.

Lemma find_rfind_none (c : ascii) (s : string) : find_nat c s = None -> rfind_nat c s = None.
Proof.
  induction s as [|d s IH]; cbn; [auto|].
  destruct (Ascii.eqb d c); [discriminate|].
  destruct (find_nat c s); [discriminate|]. intros _. now rewrite IH.
Qed.

Lemma find_nat_app_none_l (c : ascii) (a b : string) :
  find_nat c a = None -> find_nat c (a ++ b) = option_map (Nat.add (String.length a)) (find_nat c b).
Proof.
  induction a as [|d a IH]; cbn; intros H.
  - now destruct (find_nat c b).
  - destruct (Ascii.eqb d c); [discriminate|].
    destruct (find_nat c a); [discriminate|]. rewrite (IH eq_refl).
    now destruct (find_nat c b).
Qed.

Lemma rfind_nat_app_none_r (c : ascii) (a b : string) :
  rfind_nat c b = None -> rfind_nat c (a ++ b) = rfind_nat c a.
Proof. induction a as [|d a IH]; cbn; intros H; [exact H|]. now rewrite (IH H). Qed.

Lemma rfind_nat_app_some_r (c : ascii) (a b : string) (i : nat) :
  rfind_nat c b = Some i -> rfind_nat c (a ++ b) = Some (String.length a + i).
Proof. induction a as [|d a IH]; cbn; intros H; [exact H|]. now rewrite (IH H). Qed.

Lemma substring_app_r (a b : string) (n : nat) :
  substring (String.length a) n (a ++ b) = substring 0 n b.
Proof. induction a as [|d a IH]; [reflexivity|]. exact IH. Qed.

Lemma substring_prefix (a b : string) : substring 0 (String.length a) (a ++ b) = a.
Proof. induction a as [|d a IH]; [destruct b; reflexivity|]. cbn. now rewrite IH. Qed.

Lemma stage1_input_frame (p m s : string) :
  find_nat "[" p = None -> find_nat "]" s = None ->
  stage1_input (p ++ "[" ++ m ++ "]" ++ s) = ("[" ++ m ++ "]")%string.
Proof.
  intros Hp Hs. set (t := ("[" ++ m ++ "]")%string).
  assert (Ht : (t ++ s)%string = ("[" ++ m ++ "]" ++ s)%string).
  { unfold t. cbn. now rewrite str_app_assoc. }
  rewrite <- Ht.
  assert (Hf : find_nat "[" (p ++ t ++ s) = Some (String.length p)).
  { rewrite find_nat_app_none_l by exact Hp. unfold t. cbn. now rewrite Nat.add_0_r. }
  assert (Hr : rfind_nat "]" (p ++ t ++ s) = Some (String.length p + (String.length t - 1))).
  { rewrite <- str_app_assoc.
    rewrite rfind_nat_app_none_r by (now apply find_rfind_none).
    replace (p ++ t)%string with ((p ++ "[" ++ m) ++ "]")%string
      by (unfold t; now rewrite !str_app_assoc).
    rewrite (rfind_nat_app_some_r "]" _ "]" 0) by reflexivity.
    unfold t. rewrite !str_length_app. cbn [String.length]. f_equal. lia. }
  assert (Hlen : String.length (p ++ t ++ s) = String.length p + String.length t + String.length s)
    by (rewrite !str_length_app; lia).
  assert (Htl : 2 <= String.length t)
    by (unfold t; rewrite !str_length_app; cbn [String.length]; lia).
  unfold stage1_input, start_idx, end_idx, find, rfind. rewrite Hf, Hr.
  replace (Z.of_nat (String.length p) =? -1)%Z with false by (symmetry; first [apply Z.eqb_neq | apply Z.ltb_ge]; lia).
  replace (Z.of_nat (String.length p + (String.length t - 1)) + 1 =? -1)%Z with false by (symmetry; first [apply Z.eqb_neq | apply Z.ltb_ge]; lia).
  cbn [negb andb]. unfold slice, slice_index. rewrite Hlen.
  replace (Z.of_nat (String.length p) <? 0)%Z with false by (symmetry; first [apply Z.eqb_neq | apply Z.ltb_ge]; lia).
  replace (Z.of_nat (String.length p + (String.length t - 1)) + 1 <? 0)%Z with false by (symmetry; first [apply Z.eqb_neq | apply Z.ltb_ge]; lia).
  rewrite Z.min_l by lia. rewrite Z.min_l by lia.
  replace (Z.of_nat (String.length p) <? Z.of_nat (String.length p + (String.length t - 1)) + 1)%Z
    with true by (symmetry; apply Z.ltb_lt; lia).
  replace (Z.to_nat (Z.of_nat (String.length p))) with (String.length p) by lia.
  replace (Z.to_nat (Z.of_nat (String.length p + (String.length t - 1)) + 1 - Z.of_nat (String.length p)))
    with (String.length t) by lia.
  rewrite substring_app_r. apply substring_prefix.
Qed.

(** A line that opens a question in the fallback loop (line 69). *)
Definition is_q_line (line : string) : bool :=
  let t := strip line in startswith t "Q" || startswith t "Question".

(** The number of such lines. *)
Definition count_q_lines (lines : list string) : nat := List.length (filter is_q_line lines).

Lemma fallback_lines_count (lines : list string) (cq : option string) (ca : string) :
  List.length (fallback_lines lines cq ca) <=
  count_q_lines lines + (match cq with Some _ => 1 | None => 0 end).
Proof.
  revert cq ca. unfold count_q_lines.
  induction lines as [|line rest IH]; intros cq ca.
  - destruct cq; cbn; lia.
  - cbn [fallback_lines filter]. destruct (is_q_line line) eqn:Hq;
    unfold is_q_line in Hq; cbn zeta in Hq; rewrite Hq.
    + rewrite length_app. cbn [List.length].
      assert (He : List.length (emit cq ca) = match cq with Some _ => 1 | None => 0 end)
        by (destruct cq; reflexivity).
      destruct (split_colon line) as [p|].
      * specialize (IH (Some (strip p)) ""). cbn iota in IH. lia.
      * specialize (IH cq ca). destruct cq; lia.
    + destruct (startswith (strip line) "A" || startswith (strip line) "Answer");
      [destruct (split_colon line)|destruct cq]; apply IH.
Qed.








































(** ** Stage 1 and the JSON decoder *)

(** Stage 1 ignores the prose around an array: for a text made of a
    prefix without '[', a bracketed part, and a suffix without ']', the
    text handed to [json.loads] is the bracketed part, whatever it holds. *)
Theorem stage1_ignores_surrounding_text (p m s : string)
    (Hp : find_nat "[" p = None) (Hs : find_nat "]" s = None) :
  stage1 (p ++ "[" ++ m ++ "]" ++ s) = Json.json_loads ("[" ++ m ++ "]").
Proof. unfold stage1. now rewrite stage1_input_frame. Qed.

Lemma stage1_ignores_surrounding_text_witness :
  find_nat "[" "Sure! " = None /\ find_nat "]" " Hope this helps." = None /\
  stage1 ("Sure! " ++ "[" ++ "1, 2" ++ "]" ++ " Hope this helps.") = Json.json_loads ("[" ++ "1, 2" ++ "]").
Proof.
  split; [reflexivity|]. split; [reflexivity|].
  apply stage1_ignores_surrounding_text; reflexivity.
Defined.

(** Round trip: the compact JSON text of a list of records whose strings
    need no escape, surrounded by prose without '[' before it and without
    ']' after it, is parsed back to exactly that list, whatever the
    requested number of questions (no truncation). *)
Theorem parse_dumps_round_trip (p s : string) (rs : list qa) (n : nat)
    (Hp : find_nat "[" p = None) (Hs : find_nat "]" s = None)
    (Hplain : forallb plain_record rs = true) :
  parse (p ++ dumps_records rs ++ s) n = records_json rs.
Proof.
  unfold parse, stage1, dumps_records.
  replace (p ++ ("[" ++ dumps_items rs ++ "]") ++ s)%string
    with (p ++ "[" ++ dumps_items rs ++ "]" ++ s)%string by (now rewrite !str_app_assoc).
  rewrite stage1_input_frame by assumption.
  change ("[" ++ dumps_items rs ++ "]")%string with (dumps_records rs).
  now rewrite json_loads_dumps.
Qed.

Lemma parse_dumps_round_trip_witness :
  find_nat "[" "Here you go: " = None /\ find_nat "]" " Enjoy." = None /\
  forallb plain_record [("What is tea?", "A drink."); ("Where?", "China.")] = true /\
  parse ("Here you go: " ++ dumps_records [("What is tea?", "A drink."); ("Where?", "China.")]
         ++ " Enjoy.") 1 =
    records_json [("What is tea?", "A drink."); ("Where?", "China.")].
Proof.
  split; [reflexivity|]. split; [reflexivity|]. split; [reflexivity|].
  apply parse_dumps_round_trip; reflexivity.
Defined.

(** ** The fallback parser *)

(** The fallback never yields more records than [num_questions], nor more
    than there are lines that, once stripped, start with 'Q': a text with no
    such line yields no record. *)
Theorem fallback_at_most_q_lines (text : string) (n : nat) :
  List.length (fallback text n) <= Nat.min n (count_q_lines (split_nl text)).
Proof.
  unfold fallback. rewrite length_firstn.
  pose proof (fallback_lines_count (split_nl text) None "") as H. cbn iota in H. lia.
Qed.


(** ** The writers *)







(** ** The output file name *)




End Extras.


(** * Exceptions that escape the decoding *)

Module Raising.
Import Py Gen Write Facts Extras.

(** [k] arrays nested in one another: [[[...]]]. *)
Fixpoint nested (k : nat) : string :=
  match k with
  | O => ""
  | S k' => ("[" ++ nested k' ++ "]")%string
  end.

(** An integer literal of [k] digits [1]. *)
Fixpoint ones (k : nat) : string :=
  match k with
  | O => ""
  | S k' => String "1" (ones k')
  end.

Lemma nested_head (k : nat) (t : string) : 1 <= k -> exists y, (nested k ++ t)%string = String "[" y.
Proof. destruct k as [|k]; [lia|]. intros _. eexists. reflexivity. Qed.

Lemma nested_length (k : nat) : String.length (nested k) = 2 * k.
Proof.
  induction k as [|k IH]; [reflexivity|]. cbn [nested].
  rewrite str_length_app. cbn [String.length]. rewrite str_length_app, IH. cbn [String.length]. lia.
Qed.

(** Entering the array nested in [b] others raises, whatever follows. *)
Lemma scan_nested_raised (b : nat) (m : option nat) (k : nat) :
  forall d f tail, d + k = S b -> 1 <= k -> 2 * k <= f ->
  Json.scan_once {| Json.depth_budget := Some b; Json.int_max_str_digits := m |} f d
    (nested k ++ tail) = Json.Raised.
Proof.
  induction k as [|k IH]; intros d f tail Hk H1 Hf; [lia|].
  destruct f as [|f]; [lia|].
  cbn [nested]. rewrite !str_app_assoc. cbn [append Json.scan_once].
  replace ("[" =? "034")%char with false by reflexivity.
  replace ("[" =? "{")%char with false by reflexivity.
  replace ("[" =? "[")%char with true by reflexivity. cbn iota beta.
  unfold Json.enter_ok. cbn [Json.depth_budget].
  destruct (Nat.ltb_spec d b) as [Hd|Hd]; [|reflexivity].
  destruct (nested_head k (String "]" tail) ltac:(lia)) as [y Hy]. rewrite Hy.
  cbn [Json.skip_ws]. replace (Json.is_ws "[") with false by reflexivity.
  replace ("[" =? "]")%char with false by reflexivity. cbn iota beta.
  rewrite <- Hy. destruct f as [|f]; [lia|]. cbn [Json.array_items].
  rewrite IH by lia. reflexivity.
Qed.

Lemma find_ones (c : ascii) (k : nat) : c <> "1"%char -> find_nat c (ones k) = None.
Proof.
  intros Hc. induction k as [|k IH]; [reflexivity|]. cbn [ones find_nat].
  destruct (Ascii.eqb_spec "1" c); [congruence|]. now rewrite IH.
Qed.

Lemma take_digits_ones (k : nat) : Json.take_digits (ones k) = (ones k, "").
Proof. induction k as [|k IH]; [reflexivity|]. cbn [ones Json.take_digits]. now rewrite IH. Qed.

Lemma int_lexeme_ones (k : nat) : Json.int_lexeme (ones k) = true.
Proof. induction k as [|k IH]; [reflexivity|]. exact IH. Qed.

Lemma count_digits_ones (k : nat) : Json.count_digits (ones k) = k.
Proof. induction k as [|k IH]; [reflexivity|]. cbn [ones Json.count_digits]. now rewrite IH. Qed.

Lemma ones_length (k : nat) : String.length (ones k) = k.
Proof. induction k as [|k IH]; [reflexivity|]. cbn. now rewrite IH. Qed.

Lemma loads_nested (b : nat) (m : option nat) :
  Json.loads {| Json.depth_budget := Some b; Json.int_max_str_digits := m |} (nested (S b)) =
  Json.Raised.
Proof.
  unfold Json.loads. rewrite nested_length.
  destruct (nested_head (S b) "" ltac:(lia)) as [y Hy]. rewrite str_app_nil_r in Hy.
  rewrite Hy. cbn [Json.skip_ws]. replace (Json.is_ws "[") with false by reflexivity.
  cbn iota. rewrite <- Hy, <- (str_app_nil_r (nested (S b))).
  rewrite scan_nested_raised by lia. reflexivity.
Qed.

Lemma stage1_input_nested (k : nat) : stage1_input (nested (S k)) = nested (S k).
Proof.
  cbn [nested]. rewrite <- (str_app_nil_r ("]")).
  change ("[" ++ nested k ++ "]" ++ "")%string with ("" ++ "[" ++ nested k ++ "]" ++ "")%string.
  rewrite stage1_input_frame by reflexivity. reflexivity.
Qed.

Lemma loads_ones (d : option nat) (lim : nat) :
  Json.loads {| Json.depth_budget := d; Json.int_max_str_digits := Some lim |} (ones (S lim)) =
  Json.Raised.
Proof.
  unfold Json.loads. rewrite ones_length.
  replace (2 * S lim + 2) with (S (2 * S lim + 1)) by lia.
  cbn -[Json.take_digits]. rewrite take_digits_ones.
  replace (Json.is_digit "1") with true by reflexivity.
  cbn -[Json.int_lexeme Json.count_digits]. rewrite str_app_nil_r.
  change (Json.int_lexeme (String "1" (ones lim))) with (Json.int_lexeme (ones (S lim))).
  change (Json.count_digits (String "1" (ones lim))) with (Json.count_digits (ones (S lim))).
  rewrite int_lexeme_ones, count_digits_ones.
  replace (S lim <=? lim)%nat with false by (symmetry; apply Nat.leb_gt; lia). reflexivity.
Qed.

Lemma stage1_input_ones (k : nat) : stage1_input (ones k) = ones k.
Proof. apply stage1_input_no_bracket, find_ones. discriminate. Qed.

(** The runtimes of CPython: every one allows at least one array or object. *)
Definition cpython_runtime (b : nat) (m : option nat) : Json.runtime :=
  {| Json.depth_budget := Some (S b); Json.int_max_str_digits := m |}.

(** Under any runtime the decoder either raises or behaves as without
    limits. *)
Definition refines {A} (o o' : Json.outcome A) : Prop := o = Json.Raised \/ o = o'.

Ltac refines_step IHs IHa IHo :=
  match goal with
  | |- refines ?x ?x => right; reflexivity
  | |- refines Json.Raised _ => left; reflexivity
  | |- refines (Json.array_items ?rt ?f ?d ?x ?acc) _ => apply IHa
  | |- refines (Json.object_members ?rt ?f ?d ?x ?fs) _ => apply IHo
  | |- refines (match Json.scan_once ?rt ?f ?d ?x with _ => _ end) _ =>
      let E := fresh "E" in
      destruct (IHs rt d x) as [E|E]; rewrite E;
      [left; reflexivity|destruct (Json.scan_once Json.unlimited f d x)]
  | |- refines (if ?b then _ else _) _ => destruct b
  | |- refines (match ?x with _ => _ end) _ => destruct x
  end.

Lemma decoder_refines (f : nat) :
  (forall rt d s, refines (Json.scan_once rt f d s) (Json.scan_once Json.unlimited f d s)) /\
  (forall rt d s acc,
     refines (Json.array_items rt f d s acc) (Json.array_items Json.unlimited f d s acc)) /\
  (forall rt d s fs,
     refines (Json.object_members rt f d s fs) (Json.object_members Json.unlimited f d s fs)).
Proof.
  induction f as [|f [IHs [IHa IHo]]];
    [split; [|split]; intros; right; reflexivity|].
  split; [|split].
  - intros rt d s. cbn [Json.scan_once]. cbn [Json.enter_ok Json.int_ok Json.depth_budget
      Json.int_max_str_digits Json.unlimited].
    repeat refines_step IHs IHa IHo.
  - intros rt d s acc. cbn [Json.array_items]. repeat refines_step IHs IHa IHo.
  - intros rt d s fs. cbn [Json.object_members]. repeat refines_step IHs IHa IHo.
Qed.

(** Whenever the parsing raises nothing, under any runtime, its value is
    [parse]: the value the claims about [parse] describe. *)
Lemma parse_rt_parse (rt : Json.runtime) (text : string) (n : nat) (v : json) :
  parse_rt rt text n = Some v -> v = parse text n.
Proof.
  unfold parse_rt, parse, stage1, Json.json_loads, Json.loads.
  destruct (proj1 (decoder_refines (2 * String.length (stage1_input text) + 2)) rt 0
              (Json.skip_ws (stage1_input text))) as [E|E]; rewrite E; [discriminate|].
  destruct (Json.scan_once Json.unlimited _ 0 _) as [[x r]| |]; cbn; [|congruence|discriminate].
  destruct (Json.skip_ws r); congruence.
Qed.

(** ** C4 *)

(** C4 (code_bug): parse is not total and can fail its caller.
    (1) A response that is one JSON object, with no '[', decodes at stage 1
    and the dict itself is returned, not a sequence of records; the
    generation call returns it, and the long-layout loop then raises on it
    (iterating a dict gives its keys, which have no [.get]), so the whole
    batch writes no file.
    (2) A response that nests more arrays than the runtime allows makes
    [json.loads] raise [RecursionError], and (3) an integer literal with more
    digits than [int_max_str_digits] makes it raise [ValueError]: neither is
    the [JSONDecodeError] of the handler, so no fallback runs, the exception
    escapes the parsing, and the generation call returns [None]. *)
Theorem parse_can_fail_caller :
  (parse (dumps_record ("q", "a")) 5 =
     JObject [("question", JString "q"); ("answer", JString "a")] /\
   ~ (exists rs, parse (dumps_record ("q", "a")) 5 = records_json rs) /\
   forall b m s,
     generate (cpython_runtime b m) (Http_response 200 (Some (dumps_record ("q", "a")))) 5 =
       Some (JObject [("question", JString "q"); ("answer", JString "a")]) /\
     long_write [(s, generate (cpython_runtime b m)
                       (Http_response 200 (Some (dumps_record ("q", "a")))) 5)] = None) /\
  (forall b m n,
     parse_rt {| Json.depth_budget := Some b; Json.int_max_str_digits := m |} (nested (S b)) n
       = None /\
     generate {| Json.depth_budget := Some b; Json.int_max_str_digits := m |}
       (Http_response 200 (Some (nested (S b)))) n = None) /\
  (forall d lim n,
     parse_rt {| Json.depth_budget := d; Json.int_max_str_digits := Some lim |} (ones (S lim)) n
       = None /\
     generate {| Json.depth_budget := d; Json.int_max_str_digits := Some lim |}
       (Http_response 200 (Some (ones (S lim)))) n = None).
Proof.
  split; [|split].
  - split; [vm_compute; reflexivity|]. split.
    + intros [rs Hrs]. vm_compute in Hrs. discriminate.
    + intros b m s. split; vm_compute; reflexivity.
  - intros b m n.
    assert (H : parse_rt {| Json.depth_budget := Some b; Json.int_max_str_digits := m |}
                  (nested (S b)) n = None).
    { unfold parse_rt. now rewrite stage1_input_nested, loads_nested. }
    split; [exact H|]. cbn -[parse_rt]. exact H.
  - intros d lim n.
    assert (H : parse_rt {| Json.depth_budget := d; Json.int_max_str_digits := Some lim |}
                  (ones (S lim)) n = None).
    { unfold parse_rt. now rewrite stage1_input_ones, loads_ones. }
    split; [exact H|]. cbn -[parse_rt]. exact H.
Qed.

End Raising.
